(** * Bit-serial conv2d for ARM CPUs without intrinsics

    A shallow embedding of
    [python/tvm/topi/arm_cpu/bitserial_conv2d_no_intrinsics.py]:
    the compute entry point [bitserial_conv2d_nhwc_no_intrinsics], the
    configuration space it declares, and the schedule generator
    [_schedule_spatial_conv2d_nhwc_no_intrinsics].

    Tensors are index functions over [Z]; fixed-width integers are [Z] with
    the wrap-around written out; the graph builder runs in a small
    state-and-error monad that records every node it creates and every
    tuning knob it declares. *)

From Stdlib Require Import ZArith List String Bool Lia.
From stdpp Require Import base gmap strings.
Import ListNotations.

Local Open Scope Z_scope.

(** ** Python-style iteration *)

(** [for i in range(n): s = body(i, s)] *)
Fixpoint for_upto {S : Type} (n : nat) (body : Z -> S -> S) (s : S) : S :=
  match n with
  | O => s
  | Datatypes.S k => body (Z.of_nat k) (for_upto k body s)
  end.

Definition for_range {S : Type} (n : Z) (body : Z -> S -> S) (s : S) : S :=
  for_upto (Z.to_nat n) body s.

(** Exact (unbounded) sum of [f 0 + ... + f (n-1)], used in statements. *)
Fixpoint sum_upto (n : nat) (f : Z -> Z) : Z :=
  match n with
  | O => 0
  | Datatypes.S k => sum_upto k f + f (Z.of_nat k)
  end.

Definition Zsum (n : Z) (f : Z -> Z) : Z := sum_upto (Z.to_nat n) f.

(** Negative indexing [l[-1]]. *)
Definition last_of (l : list Z) : Z := List.last l 0.

(** [l[i]] for an in-range position. *)
Definition zth (i : nat) (l : list Z) : Z := List.nth i l 0.

Fixpoint set_nth (i : nat) (x : Z) (l : list Z) : list Z :=
  match l, i with
  | [], _ => []
  | _ :: r, O => x :: r
  | y :: r, Datatypes.S j => y :: set_nth j x r
  end.

(** [list.insert(i, x)] *)
Fixpoint insert_at (i : nat) (x : Z) (l : list Z) : list Z :=
  match i, l with
  | O, _ => x :: l
  | Datatypes.S j, [] => [x]
  | Datatypes.S j, y :: r => y :: insert_at j x r
  end.

(** ** Element types *)

Inductive DType := UInt8 | UInt16 | Int16 | Int32.

Definition dtype_eqb (a b : DType) : bool :=
  match a, b with
  | UInt8, UInt8 | UInt16, UInt16 | Int16, Int16 | Int32, Int32 => true
  | _, _ => false
  end.

Definition dtype_bits (t : DType) : Z :=
  match t with UInt8 => 8 | UInt16 => 16 | Int16 => 16 | Int32 => 32 end.

Definition dtype_signed (t : DType) : bool :=
  match t with UInt8 | UInt16 => false | Int16 | Int32 => true end.

Definition dtype_of_string (s : string) : option DType :=
  if String.eqb s "uint8" then Some UInt8
  else if String.eqb s "uint16" then Some UInt16
  else if String.eqb s "int16" then Some Int16
  else if String.eqb s "int32" then Some Int32
  else None.

(** The value a [w]-bit register holds after storing [v]. *)
Definition wrap (t : DType) (v : Z) : Z :=
  let m := 2 ^ dtype_bits t in
  if dtype_signed t then (v + m / 2) mod m - m / 2 else v mod m.


(** Number of set bits among the low [w] bits of the two's complement
    representation. *)
Definition popcount_bits (w : Z) (v : Z) : Z :=
  Zsum w (fun i => Z.b2z (Z.testbit v i)).

(** ** Scalar expressions of the accumulation bodies

    The reduction bodies are kept as expression trees so that the types at
    which each operator is applied can be inspected; the leaves hold the
    values read at the current loop indices. *)

Inductive PrimExpr :=
| Load (t : DType) (v : Z)
| IndexVal (v : Z)
| Cast (t : DType) (e : PrimExpr)
| BitwiseAnd (a b : PrimExpr)
| BitwiseNot (a : PrimExpr)
| Popcount (a : PrimExpr)
| ShiftLeft (a b : PrimExpr)
| Sub (a b : PrimExpr).

Fixpoint dtype_of (e : PrimExpr) : DType :=
  match e with
  | Load t _ => t
  | IndexVal _ => Int32
  | Cast t _ => t
  | BitwiseAnd a _ => dtype_of a
  | BitwiseNot a => dtype_of a
  | Popcount a => dtype_of a
  | ShiftLeft a _ => dtype_of a
  | Sub a _ => dtype_of a
  end.

Fixpoint eval (e : PrimExpr) : Z :=
  match e with
  | Load _ v => v
  | IndexVal v => v
  | Cast t a => wrap t (eval a)
  | BitwiseAnd a b => Z.land (eval a) (eval b)
  | BitwiseNot a => wrap (dtype_of a) (Z.lnot (eval a))
  | Popcount a => popcount_bits (dtype_bits (dtype_of a)) (eval a)
  | ShiftLeft a b => wrap (dtype_of a) (Z.shiftl (eval a) (eval b))
  | Sub a b => wrap (dtype_of a) (eval a - eval b)
  end.

(** [x.astype(t)]: no node is created when [x] already has type [t]. *)
Definition astype (e : PrimExpr) (t : DType) : PrimExpr :=
  if dtype_eqb (dtype_of e) t then e else Cast t e.

(** Modelled from the spec: the operator overloads of the tensor-expression
    substrate are not part of the sources.  The spec states that both
    accumulation forms widen operands to a 16-bit type before the
    bitwise/shift operations; accordingly a binary operator first brings
    its two operands to a common type, converting the narrower operand to
    the type of the wider one (and a signed one to unsigned at equal
    width). *)
Definition match_types (a b : PrimExpr) : PrimExpr * PrimExpr :=
  let ta := dtype_of a in
  let tb := dtype_of b in
  if dtype_eqb ta tb then (a, b)
  else if dtype_bits ta <? dtype_bits tb then (Cast tb a, b)
  else if dtype_bits tb <? dtype_bits ta then (a, Cast ta b)
  else if dtype_signed ta then (Cast tb a, b) else (a, Cast ta b).

Definition band (a b : PrimExpr) : PrimExpr :=
  let '(a', b') := match_types a b in BitwiseAnd a' b'.

Definition shl (a b : PrimExpr) : PrimExpr :=
  let '(a', b') := match_types a b in ShiftLeft a' b'.

Definition sub (a b : PrimExpr) : PrimExpr :=
  let '(a', b') := match_types a b in Sub a' b'.



(** ** Tensors and graph nodes *)

(** A reduction: the result type, the extents of the reduce axes in the
    order given to [te.sum], and the summand at given output and reduce
    indices. *)
Record ReduceOp := mkReduce {
  rdtype : DType;
  rextents : list Z;
  rterm : list Z -> list Z -> PrimExpr
}.

(** A tensor: its defining operation's name and tag, shape, element type,
    whether it is computed (not a placeholder), the tensors its body reads,
    its value at every index, and, for
    computed tensors, the body abstracted over the values of the tensors
    it reads ([tbody]) and the reduction it performs ([treduce]). *)
#[local] Unset Elimination Schemes.
Inductive Tensor := mkTensor {
  tname : string;
  ttag : string;
  tshape : list Z;
  tdtype : DType;
  tis_compute : bool;
  tinputs : list Tensor;
  tat : list Z -> Z;
  tbody : list (list Z -> Z) -> list Z -> Z;
  treduce : option ReduceOp
}.
#[local] Set Elimination Schemes.

(** [te.placeholder] *)
Definition placeholder (shape : list Z) (dt : DType) (name : string)
    (values : list Z -> Z) : Tensor :=
  mkTensor name "" shape dt false [] values (fun _ => values) None.

Record Node := mkNode {
  node_name : string;
  node_tag : string;
  node_shape : list Z
}.

Definition node_of (t : Tensor) : Node := mkNode (tname t) (ttag t) (tshape t).

(** ** The builder monad

    State: the graph nodes created so far (oldest first), the knobs declared
    in the configuration space, and the declared operation count.  A failed
    [assert] or a failed Python unpacking/lookup aborts the call. *)

Inductive Error :=
| AssertionError (msg : string)
| ValueError (msg : string)
| KeyError (key : string).

Inductive Entity :=
| SplitEntity (size : list Z)
| ReorderEntity (perm : list nat).

Inductive Knob :=
| SplitSpace (entities : list Entity)
| ReorderSpace (entities : list Entity).

Record BuildState := mkState {
  st_nodes : list Node;
  st_space : gmap string Knob;
  st_flop : Z
}.

Definition init_state : BuildState := mkState [] ∅ 0.

Definition M (A : Type) : Type := BuildState -> (Error + A) * BuildState.

Definition ret {A} (a : A) : M A := fun s => (inr a, s).

Definition bind {A B} (m : M A) (k : A -> M B) : M B :=
  fun s => match m s with
           | (inl e, s') => (inl e, s')
           | (inr a, s') => k a s'
           end.

Definition raise {A} (e : Error) : M A := fun s => (inl e, s).

Notation "'let!' x ':=' m 'in' k" := (bind m (fun x => k))
  (at level 10, x binder, m at level 100, k at level 200).

(** [assert cond, msg] *)
Definition assert_ (cond : bool) (msg : string) : M unit :=
  if cond then ret tt else raise (AssertionError msg).

Definition emit (t : Tensor) : M Tensor :=
  fun s => (inr t, mkState (st_nodes s ++ [node_of t]) (st_space s) (st_flop s)).

Definition declare (name : string) (k : Knob) : M unit :=
  fun s => (inr tt, mkState (st_nodes s) (<[name := k]> (st_space s)) (st_flop s)).

Definition add_flop (n : Z) : M unit :=
  fun s => (inr tt, mkState (st_nodes s) (st_space s) (st_flop s + n)).

(** Tuple unpacking of a sequence of a required length. *)
Definition unpack2 (l : list Z) : M (Z * Z) :=
  match l with
  | [a; b] => ret (a, b)
  | _ => raise (ValueError "unpack")
  end.

Definition unpack4 (l : list Z) : M (Z * Z * Z * Z) :=
  match l with
  | [a; b; c; d] => ret (a, b, c, d)
  | _ => raise (ValueError "unpack")
  end.

Definition unpack5 (l : list Z) : M (Z * Z * Z * Z * Z) :=
  match l with
  | [a; b; c; d; e] => ret (a, b, c, d, e)
  | _ => raise (ValueError "unpack")
  end.

Definition unpack6 (l : list Z) : M (Z * Z * Z * Z * Z * Z) :=
  match l with
  | [a; b; c; d; e; f] => ret (a, b, c, d, e, f)
  | _ => raise (ValueError "unpack")
  end.

Definition unpack7 (l : list Z) : M (Z * Z * Z * Z * Z * Z * Z) :=
  match l with
  | [a; b; c; d; e; f; g] => ret (a, b, c, d, e, f, g)
  | _ => raise (ValueError "unpack")
  end.

(** ** Graph-building primitives *)

(** [te.compute(shape, body, name, tag)] for an elementwise body reading
    the tensors [inputs]. *)
Definition te_compute (shape : list Z) (dt : DType) (inputs : list Tensor)
    (body : list (list Z -> Z) -> list Z -> Z) (name tag : string) : M Tensor :=
  emit (mkTensor name tag shape dt true inputs (body (map tat inputs)) body
          None).

(** [te.sum(term, axis=axes)]: the accumulator has the summand's type and
    the reduce axes are visited in the given order, first axis outermost. *)
Fixpoint te_sum (dt : DType) (extents : list Z) (term : list Z -> Z)
    (acc : Z) : Z :=
  match extents with
  | [] => wrap dt (acc + term [])
  | e :: rest =>
      for_range e (fun i a => te_sum dt rest (fun r => term (i :: r)) a) acc
  end.

Definition reduce_at (r : ReduceOp) (idx : list Z) : Z :=
  te_sum (rdtype r) (rextents r) (fun red => eval (rterm r idx red)) 0.

(** [te.compute(shape, lambda ...: te.sum(...), name, tag)] *)
Definition te_compute_sum (shape : list Z) (inputs : list Tensor)
    (r : ReduceOp) (name tag : string) : M Tensor :=
  emit (mkTensor name tag shape (rdtype r) true inputs (reduce_at r)
          (fun _ => reduce_at r) (Some r)).

(** Modelled from the spec: the padding primitive ([..nn.pad.pad]) is not
    part of the sources; it logically extends a tensor with zero-valued
    elements, [pad_before] of them below and [pad_after] above each axis.
    An axis padded on neither side is read through unchanged. *)
Fixpoint pad_index (shape pad_before pad_after indices : list Z)
    : bool * list Z :=
  match shape, pad_before, pad_after, indices with
  | d :: shape', b :: before', a :: after', i :: indices' =>
      let '(ok, idx) := pad_index shape' before' after' indices' in
      if (b =? 0) && (a =? 0) then (ok, i :: idx)
      else ((b <=? i) && (i <? d + b) && ok, (i - b) :: idx)
  | _, _, _, _ => (true, [])
  end.

Fixpoint pad_shape (shape pad_before pad_after : list Z) : list Z :=
  match shape, pad_before, pad_after with
  | d :: shape', b :: before', a :: after' =>
      (d + b + a) :: pad_shape shape' before' after'
  | _, _, _ => []
  end.

Definition pad (data : Tensor) (pad_before pad_after : list Z)
    (name : string) : M Tensor :=
  te_compute (pad_shape (tshape data) pad_before pad_after) (tdtype data)
    [data]
    (fun ins indices =>
       match ins with
       | [data_at] =>
           let '(not_zero, index_tuple) :=
             pad_index (tshape data) pad_before pad_after indices in
           if not_zero then data_at index_tuple else 0
       | _ => 0
       end)
    name "injective,pad".

(** Modelled from the spec: concatenation of tensors along one axis (used by
    the bit-plane packer to stack the planes) is not part of the sources. *)
Fixpoint concat_at (extents : list Z) (ins : list (list Z -> Z)) (axis : nat)
    (indices : list Z) : Z :=
  match extents, ins with
  | _, [] => 0
  | _, [f] => f indices
  | e :: extents', f :: ins' =>
      let i := zth axis indices in
      if i <? e then f indices
      else concat_at extents' ins' axis (set_nth axis (i - e) indices)
  | [], f :: _ => f indices
  end.

Definition concatenate (a_tuple : list Tensor) (axis : nat) : M Tensor :=
  let first := hd (placeholder [] UInt8 "" (fun _ => 0)) a_tuple in
  let extents := map (fun t => zth axis (tshape t)) a_tuple in
  te_compute (set_nth axis (fold_right Z.add 0 extents) (tshape first))
    (tdtype first) a_tuple
    (fun ins indices => concat_at extents ins axis indices)
    "T_concat" "injective".

(** Modelled from the spec: the bit-plane packer ([..nn.bitserial_util.bitpack])
    is not part of the sources.  It decomposes the values along [pack_axis]
    into [bits] binary planes placed along a new axis [bit_axis]; plane [b]
    holds bit [b] of each value, eight consecutive values per 8-bit storage
    unit, the first value in the most significant position. *)
Definition masks : list Z := [1; 2; 4; 8; 16; 32; 64; 128].

Fixpoint translate_idx (i bit_axis pack_axis : nat) (k : Z)
    (indices : list Z) : list Z :=
  match indices with
  | [] => []
  | x :: rest =>
      if Nat.eqb i bit_axis
      then translate_idx (Datatypes.S i) bit_axis pack_axis k rest
      else (if Nat.eqb i pack_axis then x * 8 + k else x)
             :: translate_idx (Datatypes.S i) bit_axis pack_axis k rest
  end.

Definition _bitpack (data_at : list Z -> Z) (bit_axis pack_axis : nat)
    (b : Z) (indices : list Z) : Z :=
  for_range 8
    (fun k packed_data =>
       let idx := translate_idx 0 bit_axis pack_axis k indices in
       let element := data_at idx in
       let extracted_bit :=
         wrap UInt8 (Z.shiftr (Z.land element (zth (Z.to_nat b) masks)) b) in
       let packed_data := Z.lor packed_data extracted_bit in
       if k <? 8 - 1 then wrap UInt8 (Z.shiftl packed_data 1)
       else packed_data)
    0.

Definition bitpack (data : Tensor) (bits : Z) (pack_axis bit_axis : nat)
    : M Tensor :=
  let ishape := tshape data in
  let shape_vec := set_nth pack_axis (zth pack_axis ishape / 8) ishape in
  let bitserial_oshape := insert_at bit_axis 1 shape_vec in
  let pack_axis' :=
    if Nat.leb bit_axis pack_axis then Datatypes.S pack_axis else pack_axis in
  let plane (b : Z) : Tensor :=
    mkTensor "QuantizeInput" "bitpack" bitserial_oshape UInt8 true [data]
      (_bitpack (tat data) bit_axis pack_axis' b)
      (fun ins =>
         match ins with
         | [data_at] => _bitpack data_at bit_axis pack_axis' b
         | _ => fun _ => 0
         end)
      None in
  let output_tuple :=
    map (fun i => plane (Z.of_nat i)) (seq 0 (Z.to_nat bits)) in
  let! _ := emit (plane 0) in
  if 1 <? bits then concatenate output_tuple bit_axis
  else ret (plane 0).

(** Modelled from the spec: the kernel vectorizer
    ([.bitserial_conv2d._kernel_vec_spatial_pack_nhwc]) is not part of the
    sources.  It bit-packs the weights unless they already are, and groups
    the output channels into chunks of the vector width [VC], so that
    [outer * VC + inner] recovers the original output channel. *)
Definition _kernel_vec_spatial_pack_nhwc (kernel : Tensor) (kernel_bits : Z)
    (VC : Z) (use_bitpack : bool) : M Tensor :=
  let! kernel_q :=
    if use_bitpack then bitpack kernel kernel_bits 2 2 else ret kernel in
  let! '(KH, KW, KB, CI, CO) := unpack5 (tshape kernel_q) in
  let kvshape := [CO / VC; KH; KW; KB; VC; CI] in
  te_compute kvshape (tdtype kernel_q) [kernel_q]
    (fun ins indices =>
       match ins, indices with
       | [kernel_q_at], [co; dh; dw; b; vc; ci] =>
           kernel_q_at [dh; dw; b; ci; co * VC + vc]
       | _, _ => 0
       end)
    "kernel_vec" "".

(** ** Configuration space *)

(** Loop variables: first the ones handed to [define_reorder], then the
    unsplit axes and the axes of the packing stages that only the schedule
    touches. *)
Inductive LoopVar :=
| ax_n | ax_oh | ax_ow | ax_co | ax_vh | ax_vw
| ax_kh | ax_kw | ax_ci_o | ax_kb | ax_ib | ax_vc | ax_ci_i
| ax_h | ax_w | ax_c | ax_ci | ax_ih | ax_oco | ax_ico.

Definition LoopVar_eqb (a b : LoopVar) : bool :=
  match a, b with
  | ax_n, ax_n | ax_oh, ax_oh | ax_ow, ax_ow | ax_co, ax_co
  | ax_vh, ax_vh | ax_vw, ax_vw | ax_kh, ax_kh | ax_kw, ax_kw
  | ax_ci_o, ax_ci_o | ax_kb, ax_kb | ax_ib, ax_ib | ax_vc, ax_vc
  | ax_ci_i, ax_ci_i | ax_h, ax_h | ax_w, ax_w | ax_c, ax_c | ax_ci, ax_ci
  | ax_ih, ax_ih | ax_oco, ax_oco | ax_ico, ax_ico => true
  | _, _ => false
  end.


(** Modelled from the spec: the autotuner's split-space enumeration is not
    part of the sources.  The candidates for an axis are its tile factors:
    the divisors of the axis length, optionally capped by [max_factor],
    each giving the two-way split [[-1, factor]]; a declared filter then
    removes candidates. *)
Definition get_factors (n : Z) : list Z :=
  List.filter (fun d => n mod d =? 0)
         (map Z.of_nat (seq 1 (Z.to_nat n))).

Definition split_candidates (length : Z) (max_factor : option Z)
    : list Entity :=
  map (fun f => SplitEntity [-1; f])
      (List.filter (fun f => match max_factor with
                        | Some m => f <=? m
                        | None => true
                        end)
              (get_factors length)).

Definition entity_size (e : Entity) : list Z :=
  match e with
  | SplitEntity size => size
  | ReorderEntity _ => []
  end.

Definition define_split (name : string) (length : Z)
    (fil : Entity -> bool) (max_factor : option Z) : M unit :=
  declare name (SplitSpace (List.filter fil (split_candidates length max_factor))).

(** Position of an axis in the list given to [define_reorder]. *)
Fixpoint to_pos (axes : list LoopVar) (x : LoopVar) : nat :=
  match axes with
  | [] => O
  | a :: rest => if LoopVar_eqb a x then O else Datatypes.S (to_pos rest x)
  end.

(** [define_reorder(name, axes, policy="candidate", candidate=...)] *)
Definition define_reorder (name : string) (axes : list LoopVar)
    (candidate : list (list LoopVar)) : M unit :=
  declare name
    (ReorderSpace (map (fun can => ReorderEntity (map (to_pos axes) can))
                       candidate)).

(** [cfg[name].size[-1]] on a resolved configuration. *)
Definition cfg_size_last (cfg : gmap string Entity) (name : string) : M Z :=
  match cfg !! name with
  | Some (SplitEntity size) => ret (last_of size)
  | _ => raise (KeyError name)
  end.

(** ** The compute entry point *)

(** A Python argument that is either an [int] or a tuple/list of them. *)
Inductive IntOrSeq :=
| PyInt (z : Z)
| PySeq (l : list Z).

(** [t[indices]] inside an expression. *)
Definition tread (t : Tensor) (indices : list Z) : PrimExpr :=
  Load (tdtype t) (tat t indices).

(** The thirteen loop variables in the order given to [define_reorder]. *)
Definition reorder_axes : list LoopVar :=
  [ax_n; ax_oh; ax_ow; ax_co; ax_vh; ax_vw; ax_kh; ax_kw; ax_ci_o; ax_kb;
   ax_ib; ax_vc; ax_ci_i].

Definition reorder_candidates : list (list LoopVar) :=
  [ [ax_n; ax_oh; ax_ow; ax_co; ax_vh; ax_vw; ax_kh; ax_kw; ax_ci_o; ax_kb;
     ax_ib; ax_vc; ax_ci_i];
    [ax_n; ax_oh; ax_ow; ax_co; ax_vh; ax_vw; ax_kw; ax_kh; ax_ci_o; ax_kb;
     ax_ib; ax_vc; ax_ci_i] ].

Section Compute.

(** Helpers of the repository whose sources are not available are taken as
    parameters: [get_pad_tuple] resolves an [int] or a pair to the four
    amounts (top, left, bottom, right); [binary_op_multiplier] gives the
    factor of the declared operation count. *)
Variable get_pad_tuple : IntOrSeq -> Tensor -> Z * Z * Z * Z.
Variable binary_op_multiplier : string -> Z.

Section Bodies.

Variables kernel_vec data_vec : Tensor.
Variables HSTR WSTR : Z.

Definition _bipolar_conv (n h w co vh vw vc : Z) (dh dw kb ib ci : Z)
    : PrimExpr :=
  shl
    (Popcount
       (band
          (astype (tread kernel_vec [co; dh; dw; kb; vc; ci]) UInt16)
          (astype
             (tread data_vec [n; h; w; vh * HSTR + dh; vw * WSTR + dw; ib; ci])
             UInt16)))
    (astype (IndexVal (kb + ib)) UInt16).

Definition _unipolar_conv (n h w co vh vw vc : Z) (dh dw kb ib ci : Z)
    : PrimExpr :=
  shl
    (sub
       (Popcount
          (band
             (astype (tread kernel_vec [co; dh; dw; kb; vc; ci]) Int16)
             (astype
                (tread data_vec
                   [n; h; w; vh * HSTR + dh; vw * WSTR + dw; ib; ci])
                Int16)))
       (astype
          (Popcount
             (band
                (BitwiseNot
                   (astype (tread kernel_vec [co; dh; dw; kb; vc; ci]) Int16))
                (tread data_vec
                   [n; h; w; vh * HSTR + dh; vw * WSTR + dw; ib; ci])))
          Int16))
    (astype (IndexVal (kb + ib)) Int16).

End Bodies.

(** The reduction [te.sum(body, axis=[dh, dw, kb, ib, ci])]. *)
Definition conv_reduce
    (body : Z -> Z -> Z -> Z -> Z -> Z -> Z -> Z -> Z -> Z -> Z -> Z -> PrimExpr)
    (KH KW KB IB CI : Z) : ReduceOp :=
  mkReduce (dtype_of (body 0 0 0 0 0 0 0 0 0 0 0 0)) [KH; KW; KB; IB; CI]
    (fun out red =>
       match out, red with
       | [n; h; w; co; vh; vw; vc], [dh; dw; kb; ib; ci] =>
           body n h w co vh vw vc dh dw kb ib ci
       | _, _ => IndexVal 0
       end).

Definition bitserial_conv2d_nhwc_no_intrinsics
    (cfg : gmap string Entity) (data kernel : Tensor)
    (stride padding : IntOrSeq) (activation_bits weight_bits : Z)
    (pack_dtype out_dtype : string) (unipolar : bool) : M Tensor :=
  let! _ :=
    match tshape data with
    | n0 :: _ =>
        assert_ (n0 =? 1) "spatial pack convolution only support batch size=1"
    | [] => raise (ValueError "index")
    end in
  let! _ := assert_ (String.eqb pack_dtype "uint8")
              "only support packing into uint8 bits" in
  let! _ := assert_ (String.eqb out_dtype "int16")
              "only support output type of int16" in

  let! '(N, H, W, CI) := unpack4 (tshape data) in
  let! '(KH, KW, CI_packed, CO) :=
    if Nat.eqb (length (tshape kernel)) 4 then
      let! '(KH, KW, _, CO) := unpack4 (tshape kernel) in
      ret (KH, KW, CI / 8, CO)
    else
      let! '(KH, KW, KB, CI_packed, CO) := unpack5 (tshape kernel) in
      ret (KH, KW, CI_packed, CO) in

  let! '(TPAD, LPAD, DPAD, RPAD) :=
    match padding with
    | PyInt _ => ret (get_pad_tuple padding kernel)
    | PySeq l =>
        if Nat.eqb (length l) 2 then ret (get_pad_tuple padding kernel)
        else unpack4 l
    end in

  let! '(HSTR, WSTR) :=
    match stride with
    | PySeq l => unpack2 l
    | PyInt z => ret (z, z)
    end in
  let HCAT := KH - 1 in
  let WCAT := KW - 1 in

  let PAD_H := H + (TPAD + DPAD) in
  let PAD_W := W + (LPAD + RPAD) in
  let OH := (PAD_H - KH) / HSTR + 1 in
  let OW := (PAD_W - KW) / WSTR + 1 in
  let oshape := [1; OH; OW; CO] in

  (* Pad input channels of weights and data when it is not a multiple of 8 *)
  let '(CI_PAD, CI_packed) :=
    if negb (CI_packed mod 8 =? 0)
    then (CI_packed mod 8, CI_packed + CI_packed mod 8)
    else (0, CI_packed) in

  (* ==================== define configuration space ==================== *)
  let! _ := define_split "tile_co" CO
              (fun x => last_of (entity_size x) =? 8) None in
  let! _ := define_split "tile_oh" OH
              (fun x => 2 <=? last_of (entity_size x)) None in
  let! _ := define_split "tile_ow" OW
              (fun x => 2 <=? last_of (entity_size x)) None in
  let! _ := define_split "tile_ci" CI_packed
              (fun x => (last_of (entity_size x) =? 8)
                        || (last_of (entity_size x) =? 16)) None in
  let! _ := define_reorder "reorder_0" reorder_axes reorder_candidates in
  (* binary ops *)
  let! _ := add_flop (2 * N * OH * OW * CO * CI * KH * KW
                      * binary_op_multiplier pack_dtype) in
  (* ==================== *)

  let! VC := cfg_size_last cfg "tile_co" in
  let! VH := cfg_size_last cfg "tile_oh" in
  let! VW := cfg_size_last cfg "tile_ow" in

  let! data_q := bitpack data activation_bits 3 3 in

  let! kernel_vec :=
    _kernel_vec_spatial_pack_nhwc kernel weight_bits VC
      (Nat.eqb (length (tshape kernel)) 4) in
  let! kernel_vec :=
    if negb (last_of (tshape kernel_vec) mod 8 =? 0) && negb (CI_PAD =? 0)
    then pad kernel_vec [0; 0; 0; 0; 0; 0] [0; 0; 0; 0; 0; CI_PAD] "PadInput"
    else ret kernel_vec in

  let! '(N, H, W, IB, CI) := unpack5 (tshape data_q) in
  let! '(OCO, KH, KW, KB, VC, CI) := unpack6 (tshape kernel_vec) in

  let dvshape :=
    [N; PAD_H / (VH * HSTR); PAD_W / (VW * WSTR);
     VH * HSTR + HCAT; VW * WSTR + WCAT; IB; CI] in
  let ovshape := [1; OH / VH; OW / VW; CO / VC; VH; VW; VC] in

  let! data_pad :=
    if negb (TPAD =? 0) && negb (RPAD =? 0)
    then pad data_q [0; TPAD; LPAD; 0; 0] [0; DPAD; RPAD; 0; CI_PAD] "data_pad"
    else if negb (CI_PAD =? 0)
    then pad data_q [0; 0; 0; 0; 0] [0; 0; 0; 0; CI_PAD] "data_pad"
    else ret data_q in

  let! data_vec :=
    te_compute dvshape (tdtype data_pad) [data_pad]
      (fun ins indices =>
         match ins, indices with
         | [data_pad_at], [n; h; w; vh; vw; b; ci] =>
             data_pad_at [n; h * VH * HSTR + vh; w * VW * WSTR + vw; b; ci]
         | _, _ => 0
         end)
      "data_vec" "" in

  let! conv_vec :=
    if unipolar
    then te_compute_sum ovshape [kernel_vec; data_vec]
           (conv_reduce (_unipolar_conv kernel_vec data_vec HSTR WSTR)
              KH KW KB IB CI)
           "conv_vec" "unipolar"
    else te_compute_sum ovshape [kernel_vec; data_vec]
           (conv_reduce (_bipolar_conv kernel_vec data_vec HSTR WSTR)
              KH KW KB IB CI)
           "conv_vec" "bipolar" in

  let! conv :=
    match dtype_of_string out_dtype with
    | Some out_dt =>
        te_compute oshape out_dt [conv_vec]
          (fun ins indices =>
             match ins, indices with
             | [conv_vec_at], [n; h; w; co] =>
                 wrap out_dt
                   (conv_vec_at
                      [n; h / VH; w / VW; co / VC;
                       h mod VH; w mod VW; co mod VC])
             | _, _ => 0
             end)
          "conv" "spatial_bitserial_conv_nhwc"
    | None => raise (ValueError out_dtype)
    end in

  ret conv.

End Compute.

(** ** The schedule generator *)

(** The schedule object is modelled by the sequence of primitives applied
    to it; stages are named after the tensor they compute. *)
Inductive Primitive :=
| compute_inline (stage : string)
| split (stage : string) (parent : LoopVar) (factor : Z) (outer inner : LoopVar)
| parallel (stage : string) (axis : LoopVar)
| reorder (stage : string) (order : list LoopVar)
| vectorize (stage : string) (axis : LoopVar)
| compute_at (stage parent : string) (axis : LoopVar).

Definition cfg_entity (cfg : gmap string Entity) (name : string) : M Entity :=
  match cfg !! name with
  | Some e => ret e
  | None => raise (KeyError name)
  end.

(** [cfg[name].apply(s, op, axis)] for a two-way split. *)
Definition split_apply (e : Entity) (stage : string) (axis outer inner : LoopVar)
    : M (list Primitive) :=
  match e with
  | SplitEntity [_; f] => ret [split stage axis f outer inner]
  | _ => raise (ValueError "split")
  end.

(** [cfg[name].apply(s, op, axes)] for a reorder:
    [new_order = [axes[i] for i in perm]]. *)
Definition reorder_apply (e : Entity) (stage : string) (axes : list LoopVar)
    : M (list Primitive) :=
  match e with
  | ReorderEntity perm =>
      let perm :=
        if Nat.eqb (length axes) (length perm) then perm
        else List.filter (fun i => Nat.ltb i (length axes)) perm in
      ret [reorder stage (map (fun i => nth i axes ax_n) perm)]
  | _ => raise (ValueError "reorder")
  end.

Definition nth_tensor (i : nat) (l : list Tensor) : M Tensor :=
  match nth_error l i with
  | Some t => ret t
  | None => raise (ValueError "index")
  end.

(** [sub in s] *)
Definition contains (sub s : string) : bool :=
  match String.index 0 sub s with
  | Some _ => true
  | None => false
  end.

(** ARM specific schedule that is not using arm32 custom microkernel *)
Definition _schedule_spatial_conv2d_nhwc_no_intrinsics
    (cfg : gmap string Entity) (s : list Primitive)
    (data_pad : option Tensor) (data_vec kernel_vec conv_out output last : Tensor)
    (unipolar : bool) : M (list Primitive) :=
  let! '(_, _, _, _, _, IB, CI) := unpack7 (tshape data_vec) in
  let! '(_, KH, KW, KB, _, _) := unpack6 (tshape kernel_vec) in

  let! VC := cfg_size_last cfg "tile_co" in
  let! VH := cfg_size_last cfg "tile_oh" in
  let! VW := cfg_size_last cfg "tile_ow" in

  (* Schedule data padding and packing *)
  let s :=
    match data_pad with
    | Some dp => s ++ [compute_inline (tname dp)]
    | None => s
    end in

  let! _ := define_split "tile_ah" (zth 1 (tshape data_vec))
              (fun _ => true) (Some 32) in
  let! tile_ah := cfg_entity cfg "tile_ah" in
  let! sp := split_apply tile_ah (tname data_vec) ax_h ax_oh ax_ih in
  let s := s ++ sp ++ [parallel (tname data_vec) ax_oh] in

  (* Schedule kernel packing *)
  let! _ := define_split "tile_bco" (zth 0 (tshape kernel_vec))
              (fun _ => true) (Some 32) in
  let! tile_bco := cfg_entity cfg "tile_bco" in
  let! sp := split_apply tile_bco (tname kernel_vec) ax_co ax_oco ax_ico in
  let s := s ++ sp ++ [parallel (tname kernel_vec) ax_oco] in

  (* Schedule Convolution *)
  let! tile_ci := cfg_entity cfg "tile_ci" in
  let! sp := split_apply tile_ci (tname conv_out) ax_ci ax_ci_o ax_ci_i in
  let s := s ++ sp in
  let! reorder_0 := cfg_entity cfg "reorder_0" in
  let! re_axes :=
    reorder_apply reorder_0 (tname conv_out)
      [ax_n; ax_oh; ax_ow; ax_co; ax_vh; ax_vw; ax_kh; ax_kw; ax_ci_o;
       ax_kb; ax_ib; ax_vc; ax_ci_i] in
  let s := s ++ re_axes in

  let! tile_co := cfg_entity cfg "tile_co" in
  let! sp := split_apply tile_co (tname last) ax_c ax_co ax_vc in
  let s := s ++ sp in
  let! tile_oh := cfg_entity cfg "tile_oh" in
  let! sp := split_apply tile_oh (tname last) ax_h ax_oh ax_vh in
  let s := s ++ sp in
  let! tile_ow := cfg_entity cfg "tile_ow" in
  let! sp := split_apply tile_ow (tname last) ax_w ax_ow ax_vw in
  let s := s ++ sp in
  let s :=
    s ++ [reorder (tname last)
            [ax_n; ax_oh; ax_ow; ax_co; ax_vh; ax_vw; ax_vc];
          vectorize (tname last) ax_vc] in
  let s :=
    if negb (String.eqb (tname last) (tname output))
    then s ++ [compute_inline (tname output)]
    else s in

  let s := s ++ [compute_at (tname conv_out) (tname last) ax_co;
                 parallel (tname last) ax_oh] in
  ret s.

Definition _callback (cfg : gmap string Entity) (outs : list Tensor)
    (op : Tensor) (s : list Primitive) : M (list Primitive) :=
  if contains "spatial_bitserial_conv_nhwc" (ttag op) then
    let output := op in
    let! conv_out := nth_tensor 0 (tinputs op) in
    let! kernel_vec := nth_tensor 0 (tinputs conv_out) in
    let! data_vec := nth_tensor 1 (tinputs conv_out) in
    let! data_q := nth_tensor 0 (tinputs data_vec) in
    let! data := nth_tensor 0 (tinputs data_q) in
    let data_pad :=
      if tis_compute data_q && contains "pad" (ttag data_q)
      then Some data_q else None in
    let! _ :=
      match data_pad with
      | Some _ => nth_tensor 0 (tinputs data)
      | None => ret data
      end in
    let! last := nth_tensor 0 outs in
    _schedule_spatial_conv2d_nhwc_no_intrinsics cfg s data_pad data_vec
      kernel_vec conv_out output last
      (contains "unipolar" (ttag conv_out))
  else ret s.

(** Modelled from the spec: the graph walk ([..utils.traverse_inline]) is not
    part of the sources.  Starting at the final node it visits every
    computed node reachable through injective nodes once, inlines the
    injective ones that are not outputs, and hands each visited node to the
    callback after its inputs. *)
Definition is_injective (tag : string) : bool :=
  String.eqb tag "elemwise" || String.eqb tag "broadcast"
  || String.eqb tag "injective".

Definition mem_string (x : string) (l : list string) : bool :=
  existsb (String.eqb x) l.

Fixpoint _traverse (callback : Tensor -> list Primitive -> M (list Primitive))
    (outputs : list string) (op : Tensor)
    (st : list string * list Primitive) : M (list string * list Primitive) :=
  let '(visited, s) := st in
  if mem_string (tname op) visited then ret st
  else
    let visited := tname op :: visited in
    let! '(visited, s) :=
      if is_injective (ttag op) then
        let s :=
          if mem_string (tname op) outputs then s
          else s ++ [compute_inline (tname op)] in
        (fix go (l : list Tensor) (st : list string * list Primitive)
           : M (list string * list Primitive) :=
           match l with
           | [] => ret st
           | tensor :: rest =>
               let! st' :=
                 if tis_compute tensor
                 then _traverse callback outputs tensor st
                 else ret st in
               go rest st'
           end) (tinputs op) (visited, s)
      else ret (visited, s) in
    let! s := callback op s in
    ret (visited, s).

Definition traverse_inline (outputs : list string) (final_op : Tensor)
    (callback : Tensor -> list Primitive -> M (list Primitive))
    : M (list Primitive) :=
  let! '(_, s) := _traverse callback outputs final_op ([], []) in
  ret s.

(** Arm cpu schedule for bitserial conv2d without the arm32 intrinsics *)
Definition schedule_bitserial_conv2d_nhwc_no_intrinsics
    (cfg : gmap string Entity) (outs : list Tensor) : M (list Primitive) :=
  let! out0 := nth_tensor 0 outs in
  traverse_inline (map tname outs) out0 (_callback cfg outs).

(** ** Executing a scheduled reduction

    Modelled from the spec: the scheduling substrate is not part of the
    sources.  [split] replaces a loop by an outer and an inner loop (the
    outer one rounded up, the body guarded), [reorder] permutes the named
    loops within the positions they occupy, and a reduction stage then runs
    its loops in the resulting order, accumulating in the type of the
    summand.  Inlining, parallel and vector marks and [compute_at] do not
    change any value. *)











(** ** Compute and schedule together *)

Definition knob_entities (k : Knob) : list Entity :=
  match k with
  | SplitSpace es => es
  | ReorderSpace es => es
  end.

(** Every declared knob is resolved by [cfg] to one of its candidates. *)
Definition drawn_from (cfg : gmap string Entity) (space : gmap string Knob)
    : Prop :=
  forall name k, space !! name = Some k ->
    exists e, cfg !! name = Some e /\ In e (knob_entities k).

(** [cfg] holds one entity of the right kind for every knob the compute and
    the schedule read. *)
Definition is_split2 (o : option Entity) : Prop :=
  exists a f, o = Some (SplitEntity [a; f]).

Definition resolved (cfg : gmap string Entity) : Prop :=
  is_split2 (cfg !! "tile_co") /\ is_split2 (cfg !! "tile_oh")
  /\ is_split2 (cfg !! "tile_ow") /\ is_split2 (cfg !! "tile_ci")
  /\ is_split2 (cfg !! "tile_ah") /\ is_split2 (cfg !! "tile_bco")
  /\ exists perm, cfg !! "reorder_0" = Some (ReorderEntity perm).

Section Pipeline.

Variable get_pad_tuple : IntOrSeq -> Tensor -> Z * Z * Z * Z.
Variable binary_op_multiplier : string -> Z.


End Pipeline.

(** ** Tensors and states named in the statements *)

(** The state after one more node has been created. *)
Definition push_node (st : BuildState) (t : Tensor) : BuildState :=
  mkState (st_nodes st ++ [node_of t]) (st_space st) (st_flop st).

Definition push_knob (st : BuildState) (name : string) (k : Knob)
    : BuildState :=
  mkState (st_nodes st) (<[name := k]> (st_space st)) (st_flop st).

(** The tensors the graph-building primitives create. *)
Definition compute_tensor (shape : list Z) (dt : DType) (inputs : list Tensor)
    (body : list (list Z -> Z) -> list Z -> Z) (name tag : string) : Tensor :=
  mkTensor name tag shape dt true inputs (body (map tat inputs)) body None.

Definition sum_tensor (shape : list Z) (inputs : list Tensor) (r : ReduceOp)
    (name tag : string) : Tensor :=
  mkTensor name tag shape (rdtype r) true inputs (reduce_at r)
    (fun _ => reduce_at r) (Some r).

Definition pad_body (shape pad_before pad_after : list Z)
    : list (list Z -> Z) -> list Z -> Z :=
  fun ins indices =>
    match ins with
    | [data_at] =>
        let '(not_zero, index_tuple) :=
          pad_index shape pad_before pad_after indices in
        if not_zero then data_at index_tuple else 0
    | _ => 0
    end.

Definition pad_tensor (data : Tensor) (pad_before pad_after : list Z)
    (name : string) : Tensor :=
  compute_tensor (pad_shape (tshape data) pad_before pad_after) (tdtype data)
    [data] (pad_body (tshape data) pad_before pad_after) name "injective,pad".

(** The bit planes and the packed tensor [bitpack] returns. *)
Definition plane_tensor (data : Tensor) (pack_axis bit_axis : nat) (b : Z)
    : Tensor :=
  let pack_axis' :=
    if Nat.leb bit_axis pack_axis then Datatypes.S pack_axis else pack_axis in
  mkTensor "QuantizeInput" "bitpack"
    (insert_at bit_axis 1
       (set_nth pack_axis (zth pack_axis (tshape data) / 8) (tshape data)))
    UInt8 true [data]
    (_bitpack (tat data) bit_axis pack_axis' b)
    (fun ins =>
       match ins with
       | [data_at] => _bitpack data_at bit_axis pack_axis' b
       | _ => fun _ => 0
       end)
    None.

Definition planes (data : Tensor) (bits : Z) (pack_axis bit_axis : nat)
    : list Tensor :=
  map (fun i => plane_tensor data pack_axis bit_axis (Z.of_nat i))
      (seq 0 (Z.to_nat bits)).

Definition concat_tensor (a_tuple : list Tensor) (axis : nat) : Tensor :=
  let first := hd (placeholder [] UInt8 "" (fun _ => 0)) a_tuple in
  let extents := map (fun t => zth axis (tshape t)) a_tuple in
  compute_tensor (set_nth axis (fold_right Z.add 0 extents) (tshape first))
    (tdtype first) a_tuple
    (fun ins indices => concat_at extents ins axis indices)
    "T_concat" "injective".

Definition bitpack_tensor (data : Tensor) (bits : Z) (pack_axis bit_axis : nat)
    : Tensor :=
  if 1 <? bits then concat_tensor (planes data bits pack_axis bit_axis) bit_axis
  else plane_tensor data pack_axis bit_axis 0.

Definition bitpack_state (st : BuildState) (data : Tensor) (bits : Z)
    (pack_axis bit_axis : nat) : BuildState :=
  let st1 := push_node st (plane_tensor data pack_axis bit_axis 0) in
  if 1 <? bits then push_node st1 (bitpack_tensor data bits pack_axis bit_axis)
  else st1.

(** The bodies of the three injective stages of the entry point. *)
Definition kernel_vec_body (VC : Z) : list (list Z -> Z) -> list Z -> Z :=
  fun ins indices =>
    match ins, indices with
    | [kernel_q_at], [co; dh; dw; b; vc; ci] =>
        kernel_q_at [dh; dw; b; ci; co * VC + vc]
    | _, _ => 0
    end.

Definition data_vec_body (VH VW HSTR WSTR : Z)
    : list (list Z -> Z) -> list Z -> Z :=
  fun ins indices =>
    match ins, indices with
    | [data_pad_at], [n; h; w; vh; vw; b; ci] =>
        data_pad_at [n; h * VH * HSTR + vh; w * VW * WSTR + vw; b; ci]
    | _, _ => 0
    end.

Definition conv_body (out_dt : DType) (VH VW VC : Z)
    : list (list Z -> Z) -> list Z -> Z :=
  fun ins indices =>
    match ins, indices with
    | [conv_vec_at], [n; h; w; co] =>
        wrap out_dt
          (conv_vec_at
             [n; h / VH; w / VW; co / VC; h mod VH; w mod VW; co mod VC])
    | _, _ => 0
    end.

(** The graph the entry point builds, stage by stage, for resolved shapes,
    padding, stride and tile widths.  [KCI] is the packed channel extent of
    the weights, [CI_packed0] the packed channel count before alignment. *)
Section Graph.

Variables data kernel : Tensor.
Variables activation_bits weight_bits : Z.
Variable unipolar : bool.
Variables H W KH KW KB KCI CO CI_packed0 : Z.
Variables TPAD LPAD DPAD RPAD HSTR WSTR VC VH VW : Z.

Definition g_CI_PAD : Z :=
  if negb (CI_packed0 mod 8 =? 0) then CI_packed0 mod 8 else 0.

Definition g_CI_packed : Z :=
  if negb (CI_packed0 mod 8 =? 0) then CI_packed0 + CI_packed0 mod 8
  else CI_packed0.

Definition g_OH : Z := (H + (TPAD + DPAD) - KH) / HSTR + 1.
Definition g_OW : Z := (W + (LPAD + RPAD) - KW) / WSTR + 1.
Definition g_IB : Z := Z.max 1 activation_bits.

Definition g_data_q : Tensor := bitpack_tensor data activation_bits 3 3.

Definition g_use_bitpack : bool := Nat.eqb (length (tshape kernel)) 4.

Definition g_kernel_q : Tensor :=
  if g_use_bitpack then bitpack_tensor kernel weight_bits 2 2 else kernel.

Definition g_kernel_vec0 : Tensor :=
  compute_tensor [CO / VC; KH; KW; KB; VC; KCI] (tdtype g_kernel_q)
    [g_kernel_q] (kernel_vec_body VC) "kernel_vec" "".

Definition g_kernel_padded : bool :=
  negb (KCI mod 8 =? 0) && negb (g_CI_PAD =? 0).

Definition g_kernel_vec : Tensor :=
  if g_kernel_padded
  then pad_tensor g_kernel_vec0 [0; 0; 0; 0; 0; 0] [0; 0; 0; 0; 0; g_CI_PAD]
         "PadInput"
  else g_kernel_vec0.

(** Extent of the reduced channel axis: the last extent of [kernel_vec]. *)
Definition g_CI : Z := if g_kernel_padded then KCI + g_CI_PAD else KCI.

Definition g_data_pad : Tensor :=
  if negb (TPAD =? 0) && negb (RPAD =? 0)
  then pad_tensor g_data_q [0; TPAD; LPAD; 0; 0] [0; DPAD; RPAD; 0; g_CI_PAD]
         "data_pad"
  else if negb (g_CI_PAD =? 0)
  then pad_tensor g_data_q [0; 0; 0; 0; 0] [0; 0; 0; 0; g_CI_PAD] "data_pad"
  else g_data_q.

Definition g_data_vec : Tensor :=
  compute_tensor
    [1; (H + (TPAD + DPAD)) / (VH * HSTR); (W + (LPAD + RPAD)) / (VW * WSTR);
     VH * HSTR + (KH - 1); VW * WSTR + (KW - 1); g_IB; g_CI]
    (tdtype g_data_pad) [g_data_pad] (data_vec_body VH VW HSTR WSTR)
    "data_vec" "".

Definition g_reduce : ReduceOp :=
  if unipolar
  then conv_reduce (_unipolar_conv g_kernel_vec g_data_vec HSTR WSTR)
         KH KW KB g_IB g_CI
  else conv_reduce (_bipolar_conv g_kernel_vec g_data_vec HSTR WSTR)
         KH KW KB g_IB g_CI.

Definition g_conv_vec : Tensor :=
  sum_tensor [1; g_OH / VH; g_OW / VW; CO / VC; VH; VW; VC]
    [g_kernel_vec; g_data_vec] g_reduce "conv_vec"
    (if unipolar then "unipolar" else "bipolar").

Definition g_conv : Tensor :=
  compute_tensor [1; g_OH; g_OW; CO] Int16 [g_conv_vec]
    (conv_body Int16 VH VW VC) "conv" "spatial_bitserial_conv_nhwc".

(** The five knobs the entry point declares. *)
Definition g_space (space : gmap string Knob) : gmap string Knob :=
  <["reorder_0" :=
      ReorderSpace
        (map (fun can => ReorderEntity (map (to_pos reorder_axes) can))
             reorder_candidates)]>
  (<["tile_ci" :=
      SplitSpace
        (List.filter
           (fun x => (last_of (entity_size x) =? 8)
                     || (last_of (entity_size x) =? 16))
           (split_candidates g_CI_packed None))]>
  (<["tile_ow" :=
      SplitSpace
        (List.filter (fun x => 2 <=? last_of (entity_size x))
           (split_candidates g_OW None))]>
  (<["tile_oh" :=
      SplitSpace
        (List.filter (fun x => 2 <=? last_of (entity_size x))
           (split_candidates g_OH None))]>
  (<["tile_co" :=
      SplitSpace
        (List.filter (fun x => last_of (entity_size x) =? 8)
           (split_candidates CO None))]> space)))).

(** The nodes the entry point creates, in creation order. *)
Definition g_nodes : list Node :=
  [node_of (plane_tensor data 3 3 0)]
  ++ (if 1 <? activation_bits then [node_of g_data_q] else [])
  ++ (if g_use_bitpack
      then [node_of (plane_tensor kernel 2 2 0)]
           ++ (if 1 <? weight_bits then [node_of g_kernel_q] else [])
      else [])
  ++ [node_of g_kernel_vec0]
  ++ (if g_kernel_padded then [node_of g_kernel_vec] else [])
  ++ (if negb (TPAD =? 0) && negb (RPAD =? 0) then [node_of g_data_pad]
      else if negb (g_CI_PAD =? 0) then [node_of g_data_pad] else [])
  ++ [node_of g_data_vec; node_of g_conv_vec; node_of g_conv].

End Graph.

(** ** Resolved arguments

    How the entry point reads its stride, padding and kernel arguments. *)

Inductive strides_to : IntOrSeq -> Z * Z -> Prop :=
| strides_int z : strides_to (PyInt z) (z, z)
| strides_pair a b : strides_to (PySeq [a; b]) (a, b).

(** [kernel_dims CI kernel weight_bits KH KW KB KCI CO CI_packed0]: the
    kernel is either unpacked 4-D (and is bit-packed by the entry point) or
    already bit-packed 5-D. *)
Inductive kernel_dims (CI : Z) (kernel : Tensor) (weight_bits : Z)
    : Z -> Z -> Z -> Z -> Z -> Z -> Prop :=
| kernel_unpacked KH KW KCI CO :
    tshape kernel = [KH; KW; KCI; CO] ->
    kernel_dims CI kernel weight_bits KH KW (Z.max 1 weight_bits) (KCI / 8) CO
      (CI / 8)
| kernel_prepacked KH KW KB KCI CO :
    tshape kernel = [KH; KW; KB; KCI; CO] ->
    kernel_dims CI kernel weight_bits KH KW KB KCI CO KCI.

(** [cfg[name].size[-1]] is [V]. *)
Definition tile_width (cfg : gmap string Entity) (name : string) (V : Z)
    : Prop :=
  exists size, cfg !! name = Some (SplitEntity size) /\ last_of size = V.

Section Resolution.

Variable get_pad_tuple : IntOrSeq -> Tensor -> Z * Z * Z * Z.

Inductive pads_to (kernel : Tensor) : IntOrSeq -> Z * Z * Z * Z -> Prop :=
| pads_int z :
    pads_to kernel (PyInt z) (get_pad_tuple (PyInt z) kernel)
| pads_pair a b :
    pads_to kernel (PySeq [a; b]) (get_pad_tuple (PySeq [a; b]) kernel)
| pads_quad t l d r :
    pads_to kernel (PySeq [t; l; d; r]) (t, l, d, r).

End Resolution.

(** [m] never fails an [assert]. *)
Definition no_assert {A} (m : M A) : Prop :=
  forall st msg, fst (m st) <> inl (AssertionError msg).

(** The candidates declared for a knob, and the inner (last) factor of a
    split candidate. *)
Definition space_entities (space : gmap string Knob) (name : string)
    : list Entity :=
  match space !! name with
  | Some k => knob_entities k
  | None => []
  end.

Definition inner_width (e : Entity) : Z := last_of (entity_size e).

(** ** A concrete instance

    A 1x8x8x64 activation and a 3x3x64x8 weight tensor of one-bit values, a
    resolved configuration for them, and instances of the two helper
    parameters: a single amount or a pair pads both sides of an axis
    equally, and the operation count is scaled by the 8 bits of a storage
    unit. *)
Definition pad_symmetric (padding : IntOrSeq) (kernel : Tensor)
    : Z * Z * Z * Z :=
  match padding with
  | PyInt p => (p, p, p, p)
  | PySeq [ph; pw] => (ph, pw, ph, pw)
  | PySeq _ => (0, 0, 0, 0)
  end.

Definition multiplier_8 (pack_dtype : string) : Z := 8.

Definition example_cfg (perm : list nat) : gmap string Entity :=
  <["tile_co" := SplitEntity [-1; 8]]>
  (<["tile_oh" := SplitEntity [-1; 2]]>
  (<["tile_ow" := SplitEntity [-1; 3]]>
  (<["tile_ci" := SplitEntity [-1; 8]]>
  (<["reorder_0" := ReorderEntity perm]>
  (<["tile_ah" := SplitEntity [-1; 2]]>
  (<["tile_bco" := SplitEntity [-1; 1]]> ∅)))))).

Definition perm_kh_outer : list nat :=
  [0; 1; 2; 3; 4; 5; 6; 7; 8; 9; 10; 11; 12]%nat.

Definition perm_kw_outer : list nat :=
  [0; 1; 2; 3; 4; 5; 7; 6; 8; 9; 10; 11; 12]%nat.

Definition example_data : Tensor :=
  placeholder [1; 8; 8; 64] UInt8 "data"
    (fun idx =>
       match idx with
       | [n; h; w; c] => (h + w + c) mod 2
       | _ => 0
       end).

Definition example_kernel : Tensor :=
  placeholder [3; 3; 64; 8] UInt8 "kernel"
    (fun idx =>
       match idx with
       | [dh; dw; c; co] => (dh * dw + c + co) mod 2
       | _ => 0
       end).

(** ** Reference results *)


(** The activation at row [y], column [x], channel [c] of the zero-padded
    input. *)
Definition padded_at (data : Tensor) (H W : Z) (y x c : Z) : Z :=
  if (0 <=? y) && (y <? H) && (0 <=? x) && (x <? W)
  then tat data [0; y; x; c] else 0.

(** The standard integer dot-product convolution of the unpacked values
    over [CI] input channels. *)
Definition conv_reference (data kernel : Tensor)
    (H W CI KH KW HSTR WSTR TPAD LPAD : Z) (h w co : Z) : Z :=
  Zsum KH (fun dh =>
  Zsum KW (fun dw =>
  Zsum CI (fun c =>
    padded_at data H W (h * HSTR + dh - TPAD) (w * WSTR + dw - LPAD) c
    * tat kernel [dh; dw; c; co]))).






(** Saturated inputs, on which the 16-bit result wraps around: a 2x2x64
    activation of 255s with 1x1 weights of 255s (eight bits each), and a
    4x4x64 activation of 255s with 3x3 one-bit weights. *)
Definition small_cfg : gmap string Entity :=
  <["tile_co" := SplitEntity [-1; 8]]>
  (<["tile_oh" := SplitEntity [-1; 2]]>
  (<["tile_ow" := SplitEntity [-1; 2]]>
  (<["tile_ci" := SplitEntity [-1; 8]]>
  (<["reorder_0" := ReorderEntity perm_kh_outer]>
  (<["tile_ah" := SplitEntity [-1; 1]]>
  (<["tile_bco" := SplitEntity [-1; 1]]> ∅)))))).



Definition ones_kernel : Tensor :=
  placeholder [3; 3; 64; 8] UInt8 "kernel" (fun _ => 1).

(** Inputs for the two padding edge cases: eight input channels (one
    packed channel), and a top-only padding of one row on a 8x8x64 input of
    ones. *)
Definition narrow_data : Tensor :=
  placeholder [1; 4; 4; 8] UInt8 "data" (fun _ => 1).

Definition narrow_kernel : Tensor :=
  placeholder [3; 3; 8; 8] UInt8 "kernel" (fun _ => 1).

Definition ones_data : Tensor :=
  placeholder [1; 8; 8; 64] UInt8 "data" (fun _ => 1).

Definition top_pad_cfg : gmap string Entity :=
  <["tile_co" := SplitEntity [-1; 8]]>
  (<["tile_oh" := SplitEntity [-1; 7]]>
  (<["tile_ow" := SplitEntity [-1; 3]]>
  (<["tile_ci" := SplitEntity [-1; 8]]>
  (<["reorder_0" := ReorderEntity perm_kh_outer]>
  (<["tile_ah" := SplitEntity [-1; 1]]>
  (<["tile_bco" := SplitEntity [-1; 1]]> ∅)))))).

Definition is_pad_node (n : Node) : bool := contains "pad" (node_tag n).

(** The same 8x8x64 input of ones, reading as zero outside its bounds. *)
Definition ones_inside_data : Tensor :=
  placeholder [1; 8; 8; 64] UInt8 "data"
    (fun idx =>
       match idx with
       | [n; y; x; c] =>
           if (0 <=? y) && (y <? 8) && (0 <=? x) && (x <? 8) then 1 else 0
       | _ => 0
       end).

(** The loop order a reorder entity with permutation [perm] gives the
    thirteen loop variables. *)
Definition reorder_order (perm : list nat) : list LoopVar :=
  map (fun i => nth i reorder_axes ax_n)
      (if Nat.eqb (length reorder_axes) (length perm) then perm
       else List.filter (fun i => Nat.ltb i (length reorder_axes)) perm).

(** The primitives the schedule generator applies to the graph of the entry
    point, given the padding node (if any), the name of the kernel stage and
    the resolved split factors and loop order. *)
Definition g_schedule (data_pad : option Tensor) (kernel_stage : string)
    (f_ah f_bco f_ci f_co f_oh f_ow : Z) (order : list LoopVar)
    : list Primitive :=
  (match data_pad with
   | Some dp => [compute_inline (tname dp)]
   | None => []
   end)
  ++ [split "data_vec" ax_h f_ah ax_oh ax_ih; parallel "data_vec" ax_oh;
      split kernel_stage ax_co f_bco ax_oco ax_ico;
      parallel kernel_stage ax_oco;
      split "conv_vec" ax_ci f_ci ax_ci_o ax_ci_i;
      reorder "conv_vec" order;
      split "conv" ax_c f_co ax_co ax_vc;
      split "conv" ax_h f_oh ax_oh ax_vh;
      split "conv" ax_w f_ow ax_ow ax_vw;
      reorder "conv" [ax_n; ax_oh; ax_ow; ax_co; ax_vh; ax_vw; ax_vc];
      vectorize "conv" ax_vc;
      compute_at "conv_vec" "conv" ax_co;
      parallel "conv" ax_oh].


(** The padding node the schedule generator finds above [data_vec]. *)
Definition g_pad_node (data : Tensor) (ab CIp0 TPAD LPAD DPAD RPAD : Z)
    : option Tensor :=
  if (negb (TPAD =? 0) && negb (RPAD =? 0)) || negb (g_CI_PAD CIp0 =? 0)
  then Some (g_data_pad data ab CIp0 TPAD LPAD DPAD RPAD) else None.

(** Decidable form of [drawn_from], for checking a concrete configuration. *)
#[global] Instance Entity_eq_dec : EqDecision Entity.
Proof. solve_decision. Defined.

Definition drawn_fromb (cfg : gmap string Entity) (space : gmap string Knob)
    : bool :=
  forallb
    (fun nk : string * Knob =>
       match cfg !! fst nk with
       | Some e => existsb (fun x => bool_decide (e = x)) (knob_entities (snd nk))
       | None => false
       end)
    (map_to_list space).


(** The two knobs the schedule generator declares for the graph of the
    entry point. *)
Definition g_tile_ah_knob (H TPAD DPAD HSTR VH : Z) : Knob :=
  SplitSpace
    (List.filter (fun _ => true)
       (split_candidates ((H + (TPAD + DPAD)) / (VH * HSTR)) (Some 32))).

Definition g_tile_bco_knob (CO VC : Z) : Knob :=
  SplitSpace
    (List.filter (fun _ => true) (split_candidates (CO / VC) (Some 32))).

(** Whether the entry point builds a padding node for the activations. *)
Definition pad_built (CI_packed0 TPAD RPAD : Z) : Prop :=
  (TPAD <> 0 /\ RPAD <> 0) \/ CI_packed0 mod 8 <> 0.

(** [idx] is an index inside a tensor of shape [shape]. *)
Fixpoint in_shape (shape idx : list Z) : bool :=
  match shape, idx with
  | [], [] => true
  | d :: shape', i :: idx' => (0 <=? i) && (i <? d) && in_shape shape' idx'
  | _, _ => false
  end.

(** An elementwise stage applied to the output of the convolution (an
    activation function fused after it), as the final output handed to the
    schedule generator. *)
Definition with_epilogue (name : string) (conv : Tensor) (fn : Z -> Z)
    : Tensor :=
  compute_tensor (tshape conv) (tdtype conv) [conv]
    (fun ins idx =>
       match ins with
       | [conv_at] => fn (conv_at idx)
       | _ => 0
       end)
    name "elemwise".

(** The primitives emitted when the final output stage is called [last]:
    the output tiling goes to that stage, and the convolution output node is
    inlined when it is not the final stage itself. *)
Definition g_schedule_for (last : string) (data_pad : option Tensor)
    (kernel_stage : string) (f_ah f_bco f_ci f_co f_oh f_ow : Z)
    (order : list LoopVar) : list Primitive :=
  (match data_pad with
   | Some dp => [compute_inline (tname dp)]
   | None => []
   end)
  ++ [split "data_vec" ax_h f_ah ax_oh ax_ih; parallel "data_vec" ax_oh;
      split kernel_stage ax_co f_bco ax_oco ax_ico;
      parallel kernel_stage ax_oco;
      split "conv_vec" ax_ci f_ci ax_ci_o ax_ci_i;
      reorder "conv_vec" order;
      split last ax_c f_co ax_co ax_vc;
      split last ax_h f_oh ax_oh ax_vh;
      split last ax_w f_ow ax_ow ax_vw;
      reorder last [ax_n; ax_oh; ax_ow; ax_co; ax_vh; ax_vw; ax_vc];
      vectorize last ax_vc]
  ++ (if negb (String.eqb last "conv") then [compute_inline "conv"] else [])
  ++ [compute_at "conv_vec" last ax_co; parallel last ax_oh].

(** A configuration that resolves only the knobs of the compute step. *)
Definition compute_only_cfg : gmap string Entity :=
  <["tile_co" := SplitEntity [-1; 8]]>
  (<["tile_oh" := SplitEntity [-1; 2]]>
  (<["tile_ow" := SplitEntity [-1; 3]]> ∅)).


(** * Properties *)

(** ** Running the builder monad *)

Lemma bind_inr {A B} (m : M A) (k : A -> M B) st a st' :
  m st = (inr a, st') -> bind m k st = k a st'.
Proof. intros E. unfold bind. now rewrite E. Qed.

Lemma bind_inl {A B} (m : M A) (k : A -> M B) st e st' :
  m st = (inl e, st') -> bind m k st = (inl e, st').
Proof. intros E. unfold bind. now rewrite E. Qed.

Lemma te_compute_run shape dt inputs body name tag st :
  te_compute shape dt inputs body name tag st
  = (inr (compute_tensor shape dt inputs body name tag),
     push_node st (compute_tensor shape dt inputs body name tag)).
Proof. reflexivity. Qed.

Lemma te_compute_sum_run shape inputs r name tag st :
  te_compute_sum shape inputs r name tag st
  = (inr (sum_tensor shape inputs r name tag),
     push_node st (sum_tensor shape inputs r name tag)).
Proof. reflexivity. Qed.

Lemma pad_run data pad_before pad_after name st :
  pad data pad_before pad_after name st
  = (inr (pad_tensor data pad_before pad_after name),
     push_node st (pad_tensor data pad_before pad_after name)).
Proof. reflexivity. Qed.

Lemma bitpack_run data bits pack_axis bit_axis st :
  bitpack data bits pack_axis bit_axis st
  = (inr (bitpack_tensor data bits pack_axis bit_axis),
     bitpack_state st data bits pack_axis bit_axis).
Proof.
  unfold bitpack, bitpack_state; unfold bitpack_tensor.
  destruct (1 <? bits); reflexivity.
Qed.

Tactic Notation "mrun" tactic3(tac) :=
  erewrite bind_inr by tac; cbv beta iota; cbn [st_nodes st_space st_flop].

Lemma if_pair {A B} (c : bool) (a a' : A) (b b' : B) :
  (if c then (a, b) else (a', b')) = (if c then a else a', if c then b else b').
Proof. now destruct c. Qed.

Lemma sum_unit_extents (f : nat -> Tensor) (axis : nat) (n start : nat) :
  (forall i, zth axis (tshape (f i)) = 1) ->
  fold_right Z.add 0 (map (fun t => zth axis (tshape t)) (map f (seq start n)))
  = Z.of_nat n.
Proof.
  intros Hf. revert start. induction n as [|n IH]; intros start.
  - reflexivity.
  - cbn [seq map fold_right]. rewrite Hf, IH. lia.
Qed.

Lemma bitpack_shape4 data bits a b c d :
  tshape data = [a; b; c; d] ->
  tshape (bitpack_tensor data bits 3 3) = [a; b; c; Z.max 1 bits; d / 8].
Proof.
  intros Hs. unfold bitpack_tensor.
  destruct (1 <? bits) eqn:E.
  - apply Z.ltb_lt in E.
    unfold concat_tensor, compute_tensor, planes. cbn [tshape].
    rewrite sum_unit_extents by (intros; unfold plane_tensor; cbn [tshape]; rewrite Hs; reflexivity).
    destruct (Z.to_nat bits) as [|n] eqn:En; [lia|].
    cbn [seq map hd]. unfold plane_tensor at 1. cbn [tshape]. rewrite Hs.
    cbn [zth nth set_nth insert_at]. rewrite <- En.
    rewrite Z2Nat.id by lia. rewrite Z.max_r by lia. reflexivity.
  - apply Z.ltb_ge in E. unfold plane_tensor. cbn [tshape]. rewrite Hs.
    cbn [zth nth set_nth insert_at]. rewrite Z.max_l by lia. reflexivity.
Qed.

Lemma bitpack_shape_kernel kernel bits a b c d :
  tshape kernel = [a; b; c; d] ->
  tshape (bitpack_tensor kernel bits 2 2) = [a; b; Z.max 1 bits; c / 8; d].
Proof.
  intros Hs. unfold bitpack_tensor.
  destruct (1 <? bits) eqn:E.
  - apply Z.ltb_lt in E.
    unfold concat_tensor, compute_tensor, planes. cbn [tshape].
    rewrite sum_unit_extents by (intros; unfold plane_tensor; cbn [tshape]; rewrite Hs; reflexivity).
    destruct (Z.to_nat bits) as [|n] eqn:En; [lia|].
    cbn [seq map hd]. unfold plane_tensor at 1. cbn [tshape]. rewrite Hs.
    cbn [zth nth set_nth insert_at]. rewrite <- En.
    rewrite Z2Nat.id by lia. rewrite Z.max_r by lia. reflexivity.
  - apply Z.ltb_ge in E. unfold plane_tensor. cbn [tshape]. rewrite Hs.
    cbn [zth nth set_nth insert_at]. rewrite Z.max_l by lia. reflexivity.
Qed.

Lemma cfg_size_last_run cfg name V st :
  tile_width cfg name V -> cfg_size_last cfg name st = (inr V, st).
Proof.
  intros (size & Hl & Hv). unfold cfg_size_last. rewrite Hl, Hv. reflexivity.
Qed.

Lemma if_pad_run (c : bool) t pb pa name st :
  (if c then pad t pb pa name else ret t) st
  = (inr (if c then pad_tensor t pb pa name else t),
     if c then push_node st (pad_tensor t pb pa name) else st).
Proof. now destruct c. Qed.

Lemma if2_pad_run (c1 c2 : bool) t pb1 pa1 pb2 pa2 name st :
  (if c1 then pad t pb1 pa1 name
   else if c2 then pad t pb2 pa2 name else ret t) st
  = (inr (if c1 then pad_tensor t pb1 pa1 name
          else if c2 then pad_tensor t pb2 pa2 name else t),
     if c1 then push_node st (pad_tensor t pb1 pa1 name)
     else if c2 then push_node st (pad_tensor t pb2 pa2 name) else st).
Proof. now destruct c1, c2. Qed.

(** ** Contract checks *)

Lemma no_assert_bind {A B} (m : M A) (k : A -> M B) :
  no_assert m -> (forall a, no_assert (k a)) -> no_assert (bind m k).
Proof.
  intros Hm Hk st msg. unfold bind.
  specialize (Hm st msg). destruct (m st) as [[e|a] st']; cbn [fst] in *.
  - intros E. apply Hm. congruence.
  - apply Hk.
Qed.

Lemma no_assert_ret {A} (a : A) : no_assert (ret a).
Proof. intros st msg. discriminate. Qed.

Lemma no_assert_value {A} s : no_assert (@raise A (ValueError s)).
Proof. intros st msg. discriminate. Qed.

Lemma no_assert_key {A} s : no_assert (@raise A (KeyError s)).
Proof. intros st msg. discriminate. Qed.

Lemma no_assert_emit t : no_assert (emit t).
Proof. intros st msg. discriminate. Qed.

Lemma no_assert_declare n k : no_assert (declare n k).
Proof. intros st msg. discriminate. Qed.

Lemma no_assert_add_flop n : no_assert (add_flop n).
Proof. intros st msg. discriminate. Qed.

Create HintDb no_assert_db.
#[local] Hint Resolve no_assert_ret no_assert_value no_assert_key no_assert_emit
  no_assert_declare no_assert_add_flop : no_assert_db.

Ltac no_assert_step :=
  lazymatch goal with
  | |- no_assert (bind _ _) => apply no_assert_bind; [|intros ?]
  | |- no_assert (match ?x with _ => _ end) => destruct x
  | |- no_assert _ => solve [auto with no_assert_db]
  end.

Lemma no_assert_unpack2 l : no_assert (unpack2 l).
Proof. unfold unpack2. repeat no_assert_step. Qed.
Lemma no_assert_unpack4 l : no_assert (unpack4 l).
Proof. unfold unpack4. repeat no_assert_step. Qed.
Lemma no_assert_unpack5 l : no_assert (unpack5 l).
Proof. unfold unpack5. repeat no_assert_step. Qed.
Lemma no_assert_unpack6 l : no_assert (unpack6 l).
Proof. unfold unpack6. repeat no_assert_step. Qed.
Lemma no_assert_te_compute s d i b n t : no_assert (te_compute s d i b n t).
Proof. apply no_assert_emit. Qed.
Lemma no_assert_te_compute_sum s i r n t : no_assert (te_compute_sum s i r n t).
Proof. apply no_assert_emit. Qed.
Lemma no_assert_pad d b a n : no_assert (pad d b a n).
Proof. apply no_assert_emit. Qed.
Lemma no_assert_bitpack d b p q : no_assert (bitpack d b p q).
Proof. intros st msg. rewrite bitpack_run. discriminate. Qed.
Lemma no_assert_define_split n l f m : no_assert (define_split n l f m).
Proof. apply no_assert_declare. Qed.
Lemma no_assert_define_reorder n a c : no_assert (define_reorder n a c).
Proof. apply no_assert_declare. Qed.
Lemma no_assert_cfg_size_last c n : no_assert (cfg_size_last c n).
Proof. unfold cfg_size_last. repeat no_assert_step. Qed.

#[local] Hint Resolve no_assert_unpack2 no_assert_unpack4 no_assert_unpack5
  no_assert_unpack6 no_assert_te_compute no_assert_te_compute_sum
  no_assert_pad no_assert_bitpack no_assert_define_split
  no_assert_define_reorder no_assert_cfg_size_last : no_assert_db.

Lemma no_assert_kernel_vec k b v u :
  no_assert (_kernel_vec_spatial_pack_nhwc k b v u).
Proof. unfold _kernel_vec_spatial_pack_nhwc. repeat no_assert_step. Qed.

#[local] Hint Resolve no_assert_kernel_vec : no_assert_db.

(** ** The declared configuration space *)

Lemma split_candidates_spec length e :
  In e (split_candidates length None)
  <-> exists f, e = SplitEntity [-1; f] /\ 1 <= f <= length /\ length mod f = 0.
Proof.
  unfold split_candidates, get_factors. rewrite in_map_iff. split.
  - intros (f & <- & Hin). apply filter_In in Hin as [Hin _].
    apply filter_In in Hin as [Hin Hm]. apply in_map_iff in Hin as (i & <- & Hi).
    apply in_seq in Hi. exists (Z.of_nat i). split; [reflexivity|].
    apply Z.eqb_eq in Hm. split; [lia|exact Hm].
  - intros (f & -> & Hf & Hm). exists f. split; [reflexivity|].
    apply filter_In. split; [|reflexivity].
    apply filter_In. split; [|now apply Z.eqb_eq].
    apply in_map_iff. exists (Z.to_nat f). split; [lia|]. apply in_seq. lia.
Qed.

(** ** Wrap-around arithmetic *)







Lemma wrap_zero t : wrap t 0 = 0.
Proof. destruct t; reflexivity. Qed.

(** ** Sums *)

Lemma sum_upto_ext n f g :
  (forall i, 0 <= i < Z.of_nat n -> f i = g i) -> sum_upto n f = sum_upto n g.
Proof.
  induction n as [|n IH]; intros Hfg; [reflexivity|].
  cbn [sum_upto]. rewrite IH by (intros; apply Hfg; lia).
  rewrite Hfg by lia. reflexivity.
Qed.

Lemma Zsum_ext n f g :
  (forall i, 0 <= i < n -> f i = g i) -> Zsum n f = Zsum n g.
Proof. intros Hfg. apply sum_upto_ext. intros. apply Hfg. lia. Qed.

(** ** The reduction computes the wrapped exact sum *)




(** ** Types in the accumulation bodies *)






(** ** Bit planes *)



Ltac forget_bits bit :=
  repeat match goal with
         | |- context [bit ?k] =>
             let v := fresh "v" in
             generalize (bit k); intros v
         end.









(** ** Value of one summand *)




(** ** Reading the packed tensors *)























(** ** Algebra of finite sums *)



Lemma sum_upto_zero n : sum_upto n (fun _ => 0) = 0.
Proof. induction n as [|n IH]; cbn [sum_upto]; lia. Qed.

Lemma Zsum_zero n : Zsum n (fun _ => 0) = 0.
Proof. apply sum_upto_zero. Qed.

Lemma sum_upto_add n f g :
  sum_upto n (fun i => f i + g i) = sum_upto n f + sum_upto n g.
Proof. induction n as [|n IH]; cbn [sum_upto]; lia. Qed.

Lemma Zsum_add n f g : Zsum n (fun i => f i + g i) = Zsum n f + Zsum n g.
Proof. apply sum_upto_add. Qed.













(** ** The accumulated value *)







Section Words.

Variables data kernel : Tensor.
Variables ab wb H W CI KH KW CO TPAD LPAD DPAD RPAD HSTR WSTR VC VH VW : Z.

Hypothesis Hdata : tshape data = [1; H; W; CI].
Hypothesis Hkernel : tshape kernel = [KH; KW; CI; CO].
Hypothesis Hab : 1 <= ab <= 8.
Hypothesis Hwb : 1 <= wb <= 8.
Hypothesis HCI : 0 <= CI.
Hypothesis HHSTR : 0 < HSTR.
Hypothesis HWSTR : 0 < WSTR.
Hypothesis Hpadding :
  TPAD <> 0 /\ RPAD <> 0 \/ TPAD = 0 /\ LPAD = 0 /\ DPAD = 0 /\ RPAD = 0.


End Words.




(** ** Channel alignment *)

(** The deficit the entry point adds is the residue itself, so the padded
    count is a multiple of 8 only for residues 0 and 4. *)
Lemma padded_count_aligned_iff CI_packed0 :
  g_CI_packed CI_packed0 mod 8 = 0
  <-> CI_packed0 mod 8 = 0 \/ CI_packed0 mod 8 = 4.
Proof.
  unfold g_CI_packed.
  destruct (Z.eqb_spec (CI_packed0 mod 8) 0) as [E|E]; cbn [negb].
  - tauto.
  - Z.div_mod_to_equations. lia.
Qed.

(** ** Scheduled loop nests *)





(** ** Running the schedule generator *)

Lemma traverse_inline_run cb outs op st s st' :
  is_injective (ttag op) = false ->
  cb op [] st = (inr s, st') ->
  traverse_inline outs op cb st = (inr s, st').
Proof.
  intros Hi Hcb. unfold traverse_inline. destruct op as [nm tg sh dt ic ins at_ bd rd].
  cbn [_traverse mem_string existsb tname ttag] in *. rewrite Hi.
  unfold bind, ret. rewrite Hcb. reflexivity.
Qed.

Lemma bitpack_first_input data bits pa ba :
  exists t, nth_error (tinputs (bitpack_tensor data bits pa ba)) 0 = Some t.
Proof.
  unfold bitpack_tensor. destruct (Z.ltb_spec 1 bits) as [Hb|Hb].
  - unfold concat_tensor, compute_tensor, planes. cbn [tinputs].
    destruct (Z.to_nat bits) as [|n] eqn:E; [lia|].
    cbn [seq map nth_error]. eauto.
  - cbn. eauto.
Qed.

Lemma bitpack_not_pad data bits pa ba :
  contains "pad" (ttag (bitpack_tensor data bits pa ba)) = false.
Proof.
  unfold bitpack_tensor. destruct (1 <? bits); reflexivity.
Qed.

Lemma data_pad_detect data ab CIp0 TPAD LPAD DPAD RPAD :
  (if tis_compute (g_data_pad data ab CIp0 TPAD LPAD DPAD RPAD)
      && contains "pad" (ttag (g_data_pad data ab CIp0 TPAD LPAD DPAD RPAD))
   then Some (g_data_pad data ab CIp0 TPAD LPAD DPAD RPAD) else None)
  = g_pad_node data ab CIp0 TPAD LPAD DPAD RPAD.
Proof.
  unfold g_pad_node, g_data_pad, g_data_q.
  destruct (negb (TPAD =? 0) && negb (RPAD =? 0)); [reflexivity|].
  destruct (negb (g_CI_PAD CIp0 =? 0)); [reflexivity|].
  rewrite bitpack_not_pad, andb_false_r. reflexivity.
Qed.

Lemma data_pad_inputs data ab CIp0 TPAD LPAD DPAD RPAD st :
  exists t t',
    nth_tensor 0 (tinputs (g_data_pad data ab CIp0 TPAD LPAD DPAD RPAD)) st
    = (inr t, st)
    /\ match g_pad_node data ab CIp0 TPAD LPAD DPAD RPAD with
       | Some _ => nth_tensor 0 (tinputs t)
       | None => ret t
       end st = (inr t', st).
Proof.
  destruct (bitpack_first_input data ab 3 3) as [u Hu].
  unfold g_pad_node, g_data_pad, g_data_q.
  destruct (negb (TPAD =? 0) && negb (RPAD =? 0)); cbn [orb].
  - exists (bitpack_tensor data ab 3 3), u. split; [reflexivity|].
    unfold nth_tensor. now rewrite Hu.
  - destruct (negb (g_CI_PAD CIp0 =? 0)).
    + exists (bitpack_tensor data ab 3 3), u. split; [reflexivity|].
      unfold nth_tensor. now rewrite Hu.
    + exists u, u. split; [|reflexivity].
      unfold nth_tensor. now rewrite Hu.
Qed.

Lemma cfg_entity_run cfg name e st :
  cfg !! name = Some e -> cfg_entity cfg name st = (inr e, st).
Proof. intros E. unfold cfg_entity. now rewrite E. Qed.

Lemma cfg_size_last_split cfg name a f st :
  cfg !! name = Some (SplitEntity [a; f]) ->
  cfg_size_last cfg name st = (inr f, st).
Proof. intros E. unfold cfg_size_last. now rewrite E. Qed.

Lemma g_kernel_vec_shape kernel wb KH KW KB KCI CO CIp0 VC :
  tshape (g_kernel_vec kernel wb KH KW KB KCI CO CIp0 VC)
  = [CO / VC; KH; KW; KB; VC; g_CI KCI CIp0].
Proof.
  unfold g_kernel_vec, g_CI. destruct (g_kernel_padded KCI CIp0);
    [|reflexivity].
  cbv [pad_tensor compute_tensor g_kernel_vec0 tshape pad_shape].
  repeat (f_equal; try lia).
Qed.

Lemma g_kernel_vec_name kernel wb KH KW KB KCI CO CIp0 VC :
  tname (g_kernel_vec kernel wb KH KW KB KCI CO CIp0 VC)
  = if g_kernel_padded KCI CIp0 then "PadInput" else "kernel_vec".
Proof. unfold g_kernel_vec. now destruct (g_kernel_padded KCI CIp0). Qed.


(** ** Reads that do not depend on the tile widths *)





Lemma g_reduce_extents data kernel ab wb unipolar
    H W KH KW KB KCI CO CIp0 TPAD LPAD DPAD RPAD HSTR WSTR VC VH VW :
  rextents (g_reduce data kernel ab wb unipolar H W KH KW KB KCI CO CIp0
              TPAD LPAD DPAD RPAD HSTR WSTR VC VH VW)
  = [KH; KW; KB; g_IB ab; g_CI KCI CIp0].
Proof. unfold g_reduce. now destruct unipolar. Qed.


(** ** The scheduled accumulation loops *)




(** ** The scheduled kernel *)




Lemma g_space_tile_ci H W KH KW CO CIp0 TPAD LPAD DPAD RPAD HSTR WSTR sp :
  g_space H W KH KW CO CIp0 TPAD LPAD DPAD RPAD HSTR WSTR sp !! "tile_ci"
  = Some (SplitSpace
            (List.filter
               (fun x => (last_of (entity_size x) =? 8)
                         || (last_of (entity_size x) =? 16))
               (split_candidates (g_CI_packed CIp0) None))).
Proof.
  unfold g_space. rewrite lookup_insert_ne by discriminate.
  apply lookup_insert_eq.
Qed.


(** ** Checking a concrete configuration *)

Lemma drawn_fromb_sound cfg space :
  drawn_fromb cfg space = true -> drawn_from cfg space.
Proof.
  unfold drawn_fromb. rewrite forallb_forall.
  intros Hb name k Hl.
  apply elem_of_map_to_list, list_elem_of_In in Hl.
  specialize (Hb _ Hl). cbn [fst snd] in Hb.
  destruct (cfg !! name) as [e|]; [|discriminate].
  exists e. split; [reflexivity|].
  apply existsb_exists in Hb as (x & Hx & Hex).
  apply bool_decide_eq_true in Hex. now subst x.
Qed.

Section Properties.

Variable get_pad_tuple : IntOrSeq -> Tensor -> Z * Z * Z * Z.
Variable binary_op_multiplier : string -> Z.

Lemma padding_run kernel padding q st :
  pads_to get_pad_tuple kernel padding q ->
  match padding with
  | PyInt _ => ret (get_pad_tuple padding kernel)
  | PySeq l =>
      if Nat.eqb (length l) 2 then ret (get_pad_tuple padding kernel)
      else unpack4 l
  end st = (inr q, st).
Proof. intros Hp. destruct Hp; reflexivity. Qed.

Lemma stride_run stride q st :
  strides_to stride q ->
  match stride with
  | PySeq l => unpack2 l
  | PyInt z => ret (z, z)
  end st = (inr q, st).
Proof. intros Hp. destruct Hp; reflexivity. Qed.

Lemma kernel_q_shape CI kernel wb KH KW KB KCI CO CIp0 :
  kernel_dims CI kernel wb KH KW KB KCI CO CIp0 ->
  tshape (g_kernel_q kernel wb) = [KH; KW; KB; KCI; CO].
Proof.
  intros Hk. unfold g_kernel_q, g_use_bitpack. destruct Hk as [? ? ? ? Hs|? ? ? ? ? Hs]; rewrite Hs.
  - cbn [length Nat.eqb]. now apply bitpack_shape_kernel.
  - cbn [length Nat.eqb]. now rewrite Hs.
Qed.

Lemma kernel_vec_run CI kernel wb KH KW KB KCI CO CIp0 VC st :
  kernel_dims CI kernel wb KH KW KB KCI CO CIp0 ->
  _kernel_vec_spatial_pack_nhwc kernel wb VC (g_use_bitpack kernel) st
  = (inr (g_kernel_vec0 kernel wb KH KW KB KCI CO VC),
     push_node
       (if g_use_bitpack kernel then bitpack_state st kernel wb 2 2 else st)
       (g_kernel_vec0 kernel wb KH KW KB KCI CO VC)).
Proof.
  intros Hk. pose proof (kernel_q_shape _ _ _ _ _ _ _ _ _ Hk) as Hq.
  unfold _kernel_vec_spatial_pack_nhwc, g_kernel_vec0.
  unfold g_kernel_q in *.
  destruct (g_use_bitpack kernel).
  - mrun (apply bitpack_run). rewrite Hq. mrun reflexivity. reflexivity.
  - mrun reflexivity. rewrite Hq. mrun reflexivity. reflexivity.
Qed.

Lemma kernel_first_dims CI kernel wb KH KW KB KCI CO CIp0 st :
  kernel_dims CI kernel wb KH KW KB KCI CO CIp0 ->
  (if Nat.eqb (length (tshape kernel)) 4 then
      let! '(KH, KW, _, CO) := unpack4 (tshape kernel) in
      ret (KH, KW, CI / 8, CO)
    else
      let! '(KH, KW, KB, CI_packed, CO) := unpack5 (tshape kernel) in
      ret (KH, KW, CI_packed, CO)) st = (inr (KH, KW, CIp0, CO), st).
Proof.
  intros Hk. destruct Hk as [? ? ? ? Hs|? ? ? ? ? Hs]; rewrite Hs; reflexivity.
Qed.

Lemma compute_run cfg data kernel stride padding ab wb unipolar st
    H W CI KH KW KB KCI CO CIp0 TPAD LPAD DPAD RPAD HSTR WSTR VC VH VW :
  tshape data = [1; H; W; CI] ->
  kernel_dims CI kernel wb KH KW KB KCI CO CIp0 ->
  pads_to get_pad_tuple kernel padding (TPAD, LPAD, DPAD, RPAD) ->
  strides_to stride (HSTR, WSTR) ->
  tile_width cfg "tile_co" VC ->
  tile_width cfg "tile_oh" VH ->
  tile_width cfg "tile_ow" VW ->
  bitserial_conv2d_nhwc_no_intrinsics get_pad_tuple binary_op_multiplier
    cfg data kernel stride padding ab wb "uint8" "int16" unipolar st
  = (inr (g_conv data kernel ab wb unipolar H W KH KW KB KCI CO CIp0
            TPAD LPAD DPAD RPAD HSTR WSTR VC VH VW),
     mkState
       (st_nodes st
        ++ g_nodes data kernel ab wb unipolar H W KH KW KB KCI CO CIp0
             TPAD LPAD DPAD RPAD HSTR WSTR VC VH VW)
       (g_space H W KH KW CO CIp0 TPAD LPAD DPAD RPAD HSTR WSTR
          (st_space st))
       (st_flop st
        + 2 * 1 * g_OH H KH TPAD DPAD HSTR * g_OW W KW LPAD RPAD WSTR * CO
          * CI * KH * KW * binary_op_multiplier "uint8")).
Proof.
  intros Hd Hk Hp Hs Hco Hoh How.
  unfold bitserial_conv2d_nhwc_no_intrinsics.
  rewrite Hd.
  mrun reflexivity. mrun reflexivity. mrun reflexivity. mrun reflexivity.
  mrun (eapply kernel_first_dims; eassumption).
  mrun (eapply padding_run; eassumption).
  mrun (eapply stride_run; eassumption).
  rewrite if_pair. cbv beta iota.
  do 6 mrun reflexivity.
  mrun (eapply cfg_size_last_run; eassumption).
  mrun (eapply cfg_size_last_run; eassumption).
  mrun (eapply cfg_size_last_run; eassumption).
  mrun (apply bitpack_run).
  mrun (eapply kernel_vec_run; eassumption).
  change (last_of (tshape (g_kernel_vec0 kernel wb KH KW KB KCI CO VC)))
    with KCI.
  fold (g_CI_PAD CIp0). fold (g_kernel_padded KCI CIp0).
  mrun (apply if_pad_run).
  fold (g_kernel_vec kernel wb KH KW KB KCI CO CIp0 VC).
  fold (g_data_q data ab).
  unfold g_data_q at 1. rewrite (bitpack_shape4 _ _ _ _ _ _ Hd).
  mrun reflexivity.
  assert (Hkv : tshape (g_kernel_vec kernel wb KH KW KB KCI CO CIp0 VC)
                = [CO / VC; KH; KW; KB; VC; g_CI KCI CIp0]).
  { unfold g_kernel_vec, g_CI. destruct (g_kernel_padded KCI CIp0);
      [|reflexivity].
    cbv [pad_tensor compute_tensor g_kernel_vec0 tshape pad_shape].
    repeat (f_equal; try lia). }
  rewrite Hkv. mrun reflexivity.
  mrun (apply if2_pad_run).
  fold (g_data_pad data ab CIp0 TPAD LPAD DPAD RPAD).
  mrun (apply te_compute_run).
  fold (data_vec_body VH VW HSTR WSTR).
  fold (g_IB ab).
  fold (g_data_vec data ab H W KH KW KCI CIp0 TPAD LPAD DPAD RPAD HSTR WSTR VH VW).
  change (dtype_of_string "int16") with (Some Int16). cbv beta iota.
  fold (conv_body Int16 VH VW VC).
  assert (Hcv :
    forall st0,
    (if unipolar
     then te_compute_sum
            [1; ((H + (TPAD + DPAD) - KH) / HSTR + 1) / VH;
             ((W + (LPAD + RPAD) - KW) / WSTR + 1) / VW; CO / VC; VH; VW; VC]
            [g_kernel_vec kernel wb KH KW KB KCI CO CIp0 VC;
             g_data_vec data ab H W KH KW KCI CIp0 TPAD LPAD DPAD RPAD HSTR
               WSTR VH VW]
            (conv_reduce
               (_unipolar_conv (g_kernel_vec kernel wb KH KW KB KCI CO CIp0 VC)
                  (g_data_vec data ab H W KH KW KCI CIp0 TPAD LPAD DPAD RPAD
                     HSTR WSTR VH VW) HSTR WSTR)
               KH KW KB (g_IB ab) (g_CI KCI CIp0))
            "conv_vec" "unipolar"
     else te_compute_sum
            [1; ((H + (TPAD + DPAD) - KH) / HSTR + 1) / VH;
             ((W + (LPAD + RPAD) - KW) / WSTR + 1) / VW; CO / VC; VH; VW; VC]
            [g_kernel_vec kernel wb KH KW KB KCI CO CIp0 VC;
             g_data_vec data ab H W KH KW KCI CIp0 TPAD LPAD DPAD RPAD HSTR
               WSTR VH VW]
            (conv_reduce
               (_bipolar_conv (g_kernel_vec kernel wb KH KW KB KCI CO CIp0 VC)
                  (g_data_vec data ab H W KH KW KCI CIp0 TPAD LPAD DPAD RPAD
                     HSTR WSTR VH VW) HSTR WSTR)
               KH KW KB (g_IB ab) (g_CI KCI CIp0))
            "conv_vec" "bipolar") st0
    = (inr (g_conv_vec data kernel ab wb unipolar H W KH KW KB KCI CO CIp0
              TPAD LPAD DPAD RPAD HSTR WSTR VC VH VW),
       push_node st0
         (g_conv_vec data kernel ab wb unipolar H W KH KW KB KCI CO CIp0
            TPAD LPAD DPAD RPAD HSTR WSTR VC VH VW))).
  { intros st0. unfold g_conv_vec, g_reduce. destruct unipolar; reflexivity. }
  mrun (apply Hcv).
  mrun (apply te_compute_run).
  fold (g_conv data kernel ab wb unipolar H W KH KW KB KCI CO CIp0
            TPAD LPAD DPAD RPAD HSTR WSTR VC VH VW).
  unfold ret. f_equal.
  unfold g_nodes, g_space, g_CI_packed, g_OH, g_OW.
  match goal with
  | |- context [mkState (st_nodes st) ?sp ?fl] =>
      set (SP := sp); set (FL := fl)
  end.
  unfold bitpack_state.
  fold (g_data_q data ab).
  fold (g_data_pad data ab CIp0 TPAD LPAD DPAD RPAD).
  fold (g_kernel_vec kernel wb KH KW KB KCI CO CIp0 VC).
  unfold g_kernel_q, g_conv, g_data_pad, g_kernel_vec.
  destruct (negb (TPAD =? 0) && negb (RPAD =? 0)),
    (negb (g_CI_PAD CIp0 =? 0)), (g_kernel_padded KCI CIp0),
    (g_use_bitpack kernel), (1 <? ab), (1 <? wb);
    unfold push_node; cbn [st_nodes st_space st_flop]; f_equal;
    repeat rewrite <- app_assoc; reflexivity.
Qed.

(** ** Output shape *)

(** C5. For every well-formed call (batch size 1, resolved stride, padding
    and kernel extents, tile widths present in the configuration) the entry
    point returns a tensor of shape
    [(1, (H + pad_h - KH) / stride_h + 1, (W + pad_w - KW) / stride_w + 1, CO)]
    with [pad_h = TPAD + DPAD] and [pad_w = LPAD + RPAD]. *)
Theorem C5_output_shape cfg data kernel stride padding ab wb unipolar st
    H W CI KH KW KB KCI CO CIp0 TPAD LPAD DPAD RPAD HSTR WSTR VC VH VW :
  tshape data = [1; H; W; CI] ->
  kernel_dims CI kernel wb KH KW KB KCI CO CIp0 ->
  pads_to get_pad_tuple kernel padding (TPAD, LPAD, DPAD, RPAD) ->
  strides_to stride (HSTR, WSTR) ->
  tile_width cfg "tile_co" VC ->
  tile_width cfg "tile_oh" VH ->
  tile_width cfg "tile_ow" VW ->
  exists conv st',
    bitserial_conv2d_nhwc_no_intrinsics get_pad_tuple binary_op_multiplier
      cfg data kernel stride padding ab wb "uint8" "int16" unipolar st
    = (inr conv, st')
    /\ tshape conv
       = [1; (H + (TPAD + DPAD) - KH) / HSTR + 1;
          (W + (LPAD + RPAD) - KW) / WSTR + 1; CO].
Proof.
  intros Hd Hk Hp Hs Hco Hoh How.
  erewrite compute_run by eassumption.
  eexists. eexists. split; [reflexivity|]. reflexivity.
Qed.

(** ** Contract checks of the entry point *)

(** C10. A call whose batch size is not 1, whose packing type is not
    ["uint8"] or whose output type is not ["int16"] fails an assertion and
    leaves the builder state untouched: no graph node has been created and
    no knob declared.  Conversely, when the three preconditions hold no
    assertion fails. *)
Theorem C10_contract_checks cfg data kernel stride padding ab wb
    pack_dtype out_dtype unipolar st n0 rest :
  tshape data = n0 :: rest ->
  ((n0 <> 1 \/ pack_dtype <> "uint8" \/ out_dtype <> "int16") ->
   exists msg,
     bitserial_conv2d_nhwc_no_intrinsics get_pad_tuple binary_op_multiplier
       cfg data kernel stride padding ab wb pack_dtype out_dtype unipolar st
     = (inl (AssertionError msg), st))
  /\ (n0 = 1 -> pack_dtype = "uint8" -> out_dtype = "int16" ->
      forall msg,
        fst (bitserial_conv2d_nhwc_no_intrinsics get_pad_tuple
               binary_op_multiplier cfg data kernel stride padding ab wb
               pack_dtype out_dtype unipolar st)
        <> inl (AssertionError msg)).
Proof.
  intros Hd. split.
  - intros Hbad. unfold bitserial_conv2d_nhwc_no_intrinsics. rewrite Hd.
    destruct (n0 =? 1) eqn:E1.
    + rewrite bind_inr with (a := tt) (st' := st) by reflexivity.
      destruct (String.eqb pack_dtype "uint8") eqn:E2.
      * rewrite bind_inr with (a := tt) (st' := st) by reflexivity.
        destruct (String.eqb out_dtype "int16") eqn:E3.
        -- apply Z.eqb_eq in E1. apply String.eqb_eq in E2, E3. tauto.
        -- eexists. apply bind_inl. reflexivity.
      * eexists. apply bind_inl. reflexivity.
    + eexists. apply bind_inl. reflexivity.
  - intros -> -> -> msg. revert st msg. 
    change (no_assert (bitserial_conv2d_nhwc_no_intrinsics get_pad_tuple
               binary_op_multiplier cfg data kernel stride padding ab wb
               "uint8" "int16" unipolar)).
    unfold bitserial_conv2d_nhwc_no_intrinsics. rewrite Hd.
    apply no_assert_bind; [intros st msg; discriminate|intros _].
    apply no_assert_bind; [intros st msg; discriminate|intros _].
    apply no_assert_bind; [intros st msg; discriminate|intros _].
    repeat no_assert_step.
Qed.

(** ** Configuration space of the entry point *)

(** C8. The split knobs the entry point declares hold exactly the tile
    candidates that pass the filters: inner width 8 for the output-channel
    tile, inner width at least 2 for the output-height and output-width
    tiles, and inner width 8 or 16 for the reduction tile. *)
Theorem C8_split_filters cfg data kernel stride padding ab wb unipolar st
    H W CI KH KW KB KCI CO CIp0 TPAD LPAD DPAD RPAD HSTR WSTR VC VH VW :
  tshape data = [1; H; W; CI] ->
  kernel_dims CI kernel wb KH KW KB KCI CO CIp0 ->
  pads_to get_pad_tuple kernel padding (TPAD, LPAD, DPAD, RPAD) ->
  strides_to stride (HSTR, WSTR) ->
  tile_width cfg "tile_co" VC ->
  tile_width cfg "tile_oh" VH ->
  tile_width cfg "tile_ow" VW ->
  let space :=
    st_space
      (snd (bitserial_conv2d_nhwc_no_intrinsics get_pad_tuple
              binary_op_multiplier cfg data kernel stride padding ab wb
              "uint8" "int16" unipolar st)) in
  (forall e, In e (space_entities space "tile_co")
     <-> In e (split_candidates CO None) /\ inner_width e = 8)
  /\ (forall e, In e (space_entities space "tile_oh")
        <-> In e (split_candidates (g_OH H KH TPAD DPAD HSTR) None)
            /\ 2 <= inner_width e)
  /\ (forall e, In e (space_entities space "tile_ow")
        <-> In e (split_candidates (g_OW W KW LPAD RPAD WSTR) None)
            /\ 2 <= inner_width e)
  /\ (forall e, In e (space_entities space "tile_ci")
        <-> In e (split_candidates (g_CI_packed CIp0) None)
            /\ (inner_width e = 8 \/ inner_width e = 16)).
Proof.
  intros Hd Hk Hp Hs Hco Hoh How space. subst space.
  erewrite compute_run by eassumption. cbn [snd st_space].
  unfold space_entities, g_space, inner_width.
  rewrite !lookup_insert_ne, lookup_insert_eq by done.
  rewrite !lookup_insert_ne, lookup_insert_eq by done.
  rewrite !lookup_insert_ne, lookup_insert_eq by done.
  rewrite !lookup_insert_ne, lookup_insert_eq by done.
  cbn [knob_entities].
  split; [|split; [|split]]; intros e; rewrite filter_In;
    cbn [entity_size]; rewrite ?orb_true_iff, ?Z.eqb_eq, ?Z.leb_le;
    reflexivity.
Qed.

(** C9 (amended). The loop-order knob holds exactly two candidates; each is
    a permutation of the thirteen loop variables handed to
    [define_reorder], and the two differ only in positions 6 and 7, where
    kernel height and kernel width trade places. *)
Theorem C9_reorder_candidates cfg data kernel stride padding ab wb unipolar st
    H W CI KH KW KB KCI CO CIp0 TPAD LPAD DPAD RPAD HSTR WSTR VC VH VW :
  tshape data = [1; H; W; CI] ->
  kernel_dims CI kernel wb KH KW KB KCI CO CIp0 ->
  pads_to get_pad_tuple kernel padding (TPAD, LPAD, DPAD, RPAD) ->
  strides_to stride (HSTR, WSTR) ->
  tile_width cfg "tile_co" VC ->
  tile_width cfg "tile_oh" VH ->
  tile_width cfg "tile_ow" VW ->
  let space :=
    st_space
      (snd (bitserial_conv2d_nhwc_no_intrinsics get_pad_tuple
              binary_op_multiplier cfg data kernel stride padding ab wb
              "uint8" "int16" unipolar st)) in
  space_entities space "reorder_0"
  = [ReorderEntity perm_kh_outer; ReorderEntity perm_kw_outer]
  /\ length reorder_axes = 13%nat
  /\ List.NoDup reorder_axes
  /\ (forall c, In c reorder_candidates -> Permutation c reorder_axes)
  /\ exists c1 c2,
       reorder_candidates = [c1; c2]
       /\ map (fun i => nth i reorder_axes ax_n) perm_kh_outer = c1
       /\ map (fun i => nth i reorder_axes ax_n) perm_kw_outer = c2
       /\ nth 6 c1 ax_n = ax_kh /\ nth 7 c1 ax_n = ax_kw
       /\ nth 6 c2 ax_n = ax_kw /\ nth 7 c2 ax_n = ax_kh
       /\ forall i, i <> 6%nat -> i <> 7%nat -> nth i c1 ax_n = nth i c2 ax_n.
Proof.
  intros Hd Hk Hp Hs Hco Hoh How space. subst space.
  erewrite compute_run by eassumption. cbn [snd st_space].
  unfold space_entities, g_space.
  rewrite lookup_insert_eq.
  split; [reflexivity|]. split; [reflexivity|].
  split.
  { unfold reorder_axes.
    repeat (apply List.NoDup_cons; [cbn [In]; intuition discriminate|]).
    apply List.NoDup_nil. }
  split.
  { intros c [<-|[<-|[]]].
    - apply Permutation_refl.
    - unfold reorder_axes. do 6 apply perm_skip. apply perm_swap. }
  eexists. eexists. split; [reflexivity|].
  repeat (split; [reflexivity|]).
  intros i H6 H7.
  do 13 (destruct i as [|i]; [try reflexivity; congruence|]). reflexivity.
Qed.

(** ** The accumulation stage *)


(** ** Correctness of the computed convolution *)



(** ** The scheduled kernel computes the declared values *)


(** ** Configuration invariance *)


End Properties.

(** ** Instances and counterexamples *)

(** C9, as stated, speaks of permutations of twelve loop variables; the
    candidates list thirteen. *)
Lemma C9_candidates_not_of_twelve :
  ~ (forall c, In c reorder_candidates -> length c = 12%nat).
Proof.
  intros Hall. specialize (Hall _ (or_introl eq_refl)). discriminate Hall.
Qed.

Lemma example_widths :
  tile_width (example_cfg perm_kh_outer) "tile_co" 8
  /\ tile_width (example_cfg perm_kh_outer) "tile_oh" 2
  /\ tile_width (example_cfg perm_kh_outer) "tile_ow" 3.
Proof. repeat split; eexists; (split; [reflexivity|reflexivity]). Qed.

(** C5 at the concrete instance: an 8x8 input, a 3x3 kernel, stride 1 and no
    padding give a (1, 6, 6, 8) output. *)
Lemma C5_output_shape_witness :
  exists conv st',
    bitserial_conv2d_nhwc_no_intrinsics pad_symmetric multiplier_8
      (example_cfg perm_kh_outer) example_data example_kernel (PyInt 1)
      (PyInt 0) 1 1 "uint8" "int16" false init_state
    = (inr conv, st')
    /\ tshape conv = [1; 6; 6; 8].
Proof.
  apply (C5_output_shape pad_symmetric multiplier_8 (example_cfg perm_kh_outer)
           example_data example_kernel (PyInt 1) (PyInt 0) 1 1 false init_state
           8 8 64 3 3 1 8 8 8 0 0 0 0 1 1 8 2 3).
  - reflexivity.
  - apply (kernel_unpacked 64 example_kernel 1 3 3 64 8). reflexivity.
  - apply (pads_int pad_symmetric example_kernel 0).
  - apply strides_int.
  - exists [-1; 8]. split; reflexivity.
  - exists [-1; 2]. split; reflexivity.
  - exists [-1; 3]. split; reflexivity.
Defined.
(** C8 at the concrete instance: the split into tiles of inner width 8 is a
    candidate of the output-channel knob. *)
Lemma C8_split_filters_witness :
  In (SplitEntity [-1; 8])
     (space_entities
        (st_space
           (snd (bitserial_conv2d_nhwc_no_intrinsics pad_symmetric
                   multiplier_8 (example_cfg perm_kh_outer) example_data
                   example_kernel (PyInt 1) (PyInt 0) 1 1 "uint8" "int16"
                   false init_state)))
        "tile_co").
Proof.
  refine (proj2 (proj1 (C8_split_filters pad_symmetric multiplier_8
           (example_cfg perm_kh_outer) example_data example_kernel (PyInt 1)
           (PyInt 0) 1 1 false init_state 8 8 64 3 3 1 8 8 8 0 0 0 0 1 1 8 2 3
           _ _ _ _ _ _ _) (SplitEntity [-1; 8])) _).
  - reflexivity.
  - apply (kernel_unpacked 64 example_kernel 1 3 3 64 8). reflexivity.
  - apply (pads_int pad_symmetric example_kernel 0).
  - apply strides_int.
  - exists [-1; 8]. split; reflexivity.
  - exists [-1; 2]. split; reflexivity.
  - exists [-1; 3]. split; reflexivity.
  - split; [vm_compute; tauto|reflexivity].
Defined.

(** C9 at the concrete instance: the declared loop orders. *)
Lemma C9_reorder_candidates_witness :
  space_entities
    (st_space
       (snd (bitserial_conv2d_nhwc_no_intrinsics pad_symmetric multiplier_8
               (example_cfg perm_kh_outer) example_data example_kernel
               (PyInt 1) (PyInt 0) 1 1 "uint8" "int16" false init_state)))
    "reorder_0"
  = [ReorderEntity perm_kh_outer; ReorderEntity perm_kw_outer].
Proof.
  apply (C9_reorder_candidates pad_symmetric multiplier_8
           (example_cfg perm_kh_outer) example_data example_kernel (PyInt 1)
           (PyInt 0) 1 1 false init_state 8 8 64 3 3 1 8 8 8 0 0 0 0 1 1 8 2 3).
  - reflexivity.
  - apply (kernel_unpacked 64 example_kernel 1 3 3 64 8). reflexivity.
  - apply (pads_int pad_symmetric example_kernel 0).
  - apply strides_int.
  - exists [-1; 8]. split; reflexivity.
  - exists [-1; 2]. split; reflexivity.
  - exists [-1; 3]. split; reflexivity.
Defined.

(** C10 at a concrete instance: a batch of two is rejected before anything
    is built. *)
Lemma C10_contract_checks_witness :
  exists msg,
    bitserial_conv2d_nhwc_no_intrinsics pad_symmetric multiplier_8
      (example_cfg perm_kh_outer)
      (placeholder [2; 8; 8; 64] UInt8 "data" (fun _ => 0)) example_kernel
      (PyInt 1) (PyInt 0) 1 1 "uint8" "int16" false init_state
    = (inl (AssertionError msg), init_state).
Proof.
  apply (C10_contract_checks pad_symmetric multiplier_8
           (example_cfg perm_kh_outer)
           (placeholder [2; 8; 8; 64] UInt8 "data" (fun _ => 0))
           example_kernel (PyInt 1) (PyInt 0) 1 1 "uint8" "int16" false
           init_state 2 [8; 8; 64]).
  - reflexivity.
  - left. lia.
Defined.




(** C3 at eight input channels: the packed count is 1, the deficit computed
    is 1, and both padded tensors get a packed-channel extent of 2, which is
    not a multiple of 8; no reduction tile passes the filter. *)
Lemma C3_eight_channels_padded_to_two :
  let st :=
    snd (bitserial_conv2d_nhwc_no_intrinsics pad_symmetric multiplier_8
           small_cfg narrow_data narrow_kernel (PyInt 1) (PyInt 0) 1 1
           "uint8" "int16" false init_state) in
  map node_shape (List.filter is_pad_node (st_nodes st))
  = [[1; 3; 3; 1; 8; 2]; [1; 4; 4; 1; 2]]
  /\ 2 mod 8 <> 0
  /\ space_entities (st_space st) "tile_ci" = [].
Proof. vm_compute. repeat split. discriminate. Qed.

(** C4 at a top-only padding of one row: the output has 7 rows, as for a
    padded input of 9 rows, but no padding node is built; the first output
    row reads input rows 0 to 2 instead of the padded row and rows 0 to 1
    (576 instead of 384), and the last output row reads input row 8, which
    does not exist: two inputs that agree on all 8 rows give different
    results there. *)
Lemma C4_top_only_padding_builds_no_pad_node :
  exists conv conv' st,
    bitserial_conv2d_nhwc_no_intrinsics pad_symmetric multiplier_8
      top_pad_cfg ones_data ones_kernel (PyInt 1) (PySeq [1; 0; 0; 0]) 1 1
      "uint8" "int16" false init_state
    = (inr conv, st)
    /\ fst (bitserial_conv2d_nhwc_no_intrinsics pad_symmetric multiplier_8
              top_pad_cfg ones_inside_data ones_kernel (PyInt 1)
              (PySeq [1; 0; 0; 0]) 1 1 "uint8" "int16" false init_state)
       = inr conv'
    /\ tshape conv = [1; 7; 6; 8]
    /\ List.filter is_pad_node (st_nodes st) = []
    /\ tat conv [0; 0; 0; 0] = 576
    /\ conv_reference ones_data ones_kernel 8 8 64 3 3 1 1 1 0 0 0 0 = 384
    /\ tat conv [0; 6; 0; 0] = 576
    /\ tat conv' [0; 6; 0; 0] = 384.
Proof.
  eexists. eexists. eexists. split; [|split].
  - erewrite (compute_run pad_symmetric multiplier_8 top_pad_cfg
                ones_data ones_kernel (PyInt 1) (PySeq [1; 0; 0; 0]) 1 1
                false init_state 8 8 64 3 3 1 8 8 8 1 0 0 0 1 1 8 7 3).
    + reflexivity.
    + reflexivity.
    + apply (kernel_unpacked 64 ones_kernel 1 3 3 64 8). reflexivity.
    + apply (pads_quad pad_symmetric ones_kernel 1 0 0 0).
    + apply strides_int.
    + exists [-1; 8]. split; reflexivity.
    + exists [-1; 7]. split; reflexivity.
    + exists [-1; 3]. split; reflexivity.
  - erewrite (compute_run pad_symmetric multiplier_8 top_pad_cfg
                ones_inside_data ones_kernel (PyInt 1) (PySeq [1; 0; 0; 0])
                1 1 false init_state 8 8 64 3 3 1 8 8 8 1 0 0 0 1 1 8 7 3).
    + reflexivity.
    + reflexivity.
    + apply (kernel_unpacked 64 ones_kernel 1 3 3 64 8). reflexivity.
    + apply (pads_quad pad_symmetric ones_kernel 1 0 0 0).
    + apply strides_int.
    + exists [-1; 8]. split; reflexivity.
    + exists [-1; 7]. split; reflexivity.
    + exists [-1; 3]. split; reflexivity.
  - vm_compute. repeat split.
Qed.


(** * Further properties of the entry points *)

Section MoreProperties.

Variable get_pad_tuple : IntOrSeq -> Tensor -> Z * Z * Z * Z.
Variable binary_op_multiplier : string -> Z.

(** ** Declared operation count *)

(** X1. A successful call adds [2 * N * OH * OW * CO * CI * KH * KW] times
    the multiplier of the storage type to the declared operation count,
    with [N = 1] and [CI] the unpacked channel count of the activation
    tensor, also when the kernel is given bit-packed. *)
Theorem X1_declared_operation_count cfg data kernel stride padding ab wb
    unipolar st
    H W CI KH KW KB KCI CO CIp0 TPAD LPAD DPAD RPAD HSTR WSTR VC VH VW :
  tshape data = [1; H; W; CI] ->
  kernel_dims CI kernel wb KH KW KB KCI CO CIp0 ->
  pads_to get_pad_tuple kernel padding (TPAD, LPAD, DPAD, RPAD) ->
  strides_to stride (HSTR, WSTR) ->
  tile_width cfg "tile_co" VC ->
  tile_width cfg "tile_oh" VH ->
  tile_width cfg "tile_ow" VW ->
  st_flop (snd (bitserial_conv2d_nhwc_no_intrinsics get_pad_tuple
                  binary_op_multiplier cfg data kernel stride padding ab wb
                  "uint8" "int16" unipolar st))
  = st_flop st
    + 2 * 1 * ((H + (TPAD + DPAD) - KH) / HSTR + 1)
      * ((W + (LPAD + RPAD) - KW) / WSTR + 1) * CO * CI * KH * KW
      * binary_op_multiplier "uint8".
Proof.
  intros Hd Hk Hp Hs Hco Hoh How.
  erewrite compute_run by eassumption. reflexivity.
Qed.

(** ** Malformed arguments *)

(** X2. With the three contract checks satisfied, an activation tensor
    whose shape has not exactly four extents, or a kernel whose shape has
    neither four nor five extents, makes the call fail with a [ValueError]
    (a failed tuple unpacking) before anything is declared or built. *)
Theorem X2_wrong_rank_is_value_error cfg data kernel stride padding ab wb
    unipolar st :
  (exists rest, tshape data = 1 :: rest /\ length rest <> 3%nat)
  \/ ((exists H W CI, tshape data = [1; H; W; CI])
      /\ length (tshape kernel) <> 4%nat /\ length (tshape kernel) <> 5%nat) ->
  exists msg,
    bitserial_conv2d_nhwc_no_intrinsics get_pad_tuple binary_op_multiplier
      cfg data kernel stride padding ab wb "uint8" "int16" unipolar st
    = (inl (ValueError msg), st).
Proof.
  intros [(rest & Hd & Hl) | ((H & W & CI & Hd) & H4 & H5)];
    unfold bitserial_conv2d_nhwc_no_intrinsics; rewrite Hd.
  - destruct rest as [|a [|b [|c [|d r]]]]; cbn [length] in Hl;
      try lia; eexists; reflexivity.
  - destruct (tshape kernel) as [|a [|b [|c [|d [|e [|f r]]]]]];
      cbn [length] in H4, H5; try lia; eexists; reflexivity.
Qed.

(** X3. With well-formed tensors, a padding sequence of a length other than
    two or four, or (with the padding resolved) a stride sequence of a
    length other than two, makes the call fail with a [ValueError] before
    anything is declared or built. *)
Theorem X3_wrong_sequence_is_value_error cfg data kernel stride padding
    ab wb unipolar st H W CI KH KW KB KCI CO CIp0 :
  tshape data = [1; H; W; CI] ->
  kernel_dims CI kernel wb KH KW KB KCI CO CIp0 ->
  (exists l, padding = PySeq l /\ length l <> 2%nat /\ length l <> 4%nat)
  \/ ((exists q, pads_to get_pad_tuple kernel padding q)
      /\ exists l, stride = PySeq l /\ length l <> 2%nat) ->
  exists msg,
    bitserial_conv2d_nhwc_no_intrinsics get_pad_tuple binary_op_multiplier
      cfg data kernel stride padding ab wb "uint8" "int16" unipolar st
    = (inl (ValueError msg), st).
Proof.
  intros Hd Hk Hbad.
  unfold bitserial_conv2d_nhwc_no_intrinsics. rewrite Hd.
  mrun reflexivity. mrun reflexivity. mrun reflexivity. mrun reflexivity.
  mrun (eapply kernel_first_dims; eassumption).
  destruct Hbad as [(l & -> & H2 & H4) | ((q & Hp) & l & -> & H2)].
  - destruct l as [|a [|b [|c [|d [|e r]]]]]; cbn [length] in H2, H4;
      try lia; eexists; reflexivity.
  - destruct q as [[[TPAD LPAD] DPAD] RPAD].
    mrun (eapply padding_run; eassumption).
    destruct l as [|a [|b [|c r]]]; cbn [length] in H2;
      try lia; eexists; reflexivity.
Qed.

(** ** Unresolved configurations *)

(** X4. With well-formed arguments, a configuration that lacks the entry of
    one of the three output tiles makes the call fail with a [KeyError]
    naming the first missing one.  By then the five knobs are declared and
    the operation count is recorded, but no graph node has been built. *)
Theorem X4_missing_tile_is_key_error cfg data kernel stride padding ab wb
    unipolar st name
    H W CI KH KW KB KCI CO CIp0 TPAD LPAD DPAD RPAD HSTR WSTR :
  tshape data = [1; H; W; CI] ->
  kernel_dims CI kernel wb KH KW KB KCI CO CIp0 ->
  pads_to get_pad_tuple kernel padding (TPAD, LPAD, DPAD, RPAD) ->
  strides_to stride (HSTR, WSTR) ->
  (name = "tile_co" /\ cfg !! "tile_co" = None)
  \/ (name = "tile_oh" /\ (exists VC, tile_width cfg "tile_co" VC)
      /\ cfg !! "tile_oh" = None)
  \/ (name = "tile_ow" /\ (exists VC, tile_width cfg "tile_co" VC)
      /\ (exists VH, tile_width cfg "tile_oh" VH)
      /\ cfg !! "tile_ow" = None) ->
  bitserial_conv2d_nhwc_no_intrinsics get_pad_tuple binary_op_multiplier
    cfg data kernel stride padding ab wb "uint8" "int16" unipolar st
  = (inl (KeyError name),
     mkState (st_nodes st)
       (g_space H W KH KW CO CIp0 TPAD LPAD DPAD RPAD HSTR WSTR (st_space st))
       (st_flop st
        + 2 * 1 * g_OH H KH TPAD DPAD HSTR * g_OW W KW LPAD RPAD WSTR * CO
          * CI * KH * KW * binary_op_multiplier "uint8")).
Proof.
  intros Hd Hk Hp Hs Hmiss.
  unfold bitserial_conv2d_nhwc_no_intrinsics. rewrite Hd.
  mrun reflexivity. mrun reflexivity. mrun reflexivity. mrun reflexivity.
  mrun (eapply kernel_first_dims; eassumption).
  mrun (eapply padding_run; eassumption).
  mrun (eapply stride_run; eassumption).
  rewrite if_pair. cbv beta iota.
  do 6 mrun reflexivity.
  destruct Hmiss as [(-> & Hn) | [(-> & (VC & Hco) & Hn)
                                 | (-> & (VC & Hco) & (VH & Hoh) & Hn)]].
  - erewrite bind_inl
      by (unfold cfg_size_last; rewrite Hn; reflexivity).
    reflexivity.
  - mrun (eapply cfg_size_last_run; eassumption).
    erewrite bind_inl
      by (unfold cfg_size_last; rewrite Hn; reflexivity).
    reflexivity.
  - mrun (eapply cfg_size_last_run; eassumption).
    mrun (eapply cfg_size_last_run; eassumption).
    erewrite bind_inl
      by (unfold cfg_size_last; rewrite Hn; reflexivity).
    reflexivity.
Qed.

(** ** An all-zero activation tensor *)







Lemma popcount_zero w : popcount_bits w 0 = 0.
Proof.
  unfold popcount_bits. transitivity (Zsum w (fun _ => 0)).
  - apply Zsum_ext. intros i _. now rewrite Z.testbit_0_l.
  - apply Zsum_zero.
Qed.

Lemma zero_activation_summand kv dv HSTR WSTR (unipolar : bool)
    n h w co vh vw vc dh dw kb ib ci :
  tat dv [n; h; w; vh * HSTR + dh; vw * WSTR + dw; ib; ci] = 0 ->
  eval ((if unipolar then _unipolar_conv else _bipolar_conv)
          kv dv HSTR WSTR n h w co vh vw vc dh dw kb ib ci) = 0.
Proof.
  intros Hz.
  destruct unipolar; unfold _unipolar_conv, _bipolar_conv, tread;
    rewrite Hz;
    destruct (tdtype kv), (tdtype dv);
    cbn [astype dtype_of dtype_eqb band shl sub match_types dtype_bits
         dtype_signed Z.ltb Z.compare Pos.compare Pos.compare_cont eval];
    rewrite ?wrap_zero, ?Z.land_0_r, ?popcount_zero, ?wrap_zero,
      ?Z.sub_0_r, ?wrap_zero, ?Z.shiftl_0_l, ?wrap_zero; reflexivity.
Qed.



(** ** The schedule of the graph the entry point builds *)

Lemma split_candidates_capped length m e :
  In e (split_candidates length (Some m))
  <-> exists f, e = SplitEntity [-1; f] /\ 1 <= f <= length
                /\ length mod f = 0 /\ f <= m.
Proof.
  unfold split_candidates, get_factors. rewrite in_map_iff. split.
  - intros (f & <- & Hin). apply filter_In in Hin as [Hin Hle].
    apply filter_In in Hin as [Hin Hm]. apply in_map_iff in Hin as (i & <- & Hi).
    apply in_seq in Hi. exists (Z.of_nat i). split; [reflexivity|].
    apply Z.eqb_eq in Hm. apply Z.leb_le in Hle.
    repeat split; first [lia | exact Hm].
  - intros (f & -> & Hf & Hm & Hle). exists f. split; [reflexivity|].
    apply filter_In. split; [|now apply Z.leb_le].
    apply filter_In. split; [|now apply Z.eqb_eq].
    apply in_map_iff. exists (Z.to_nat f). split; [lia|]. apply in_seq. lia.
Qed.

Lemma pad_node_built data ab CIp0 TPAD LPAD DPAD RPAD :
  (exists dp, g_pad_node data ab CIp0 TPAD LPAD DPAD RPAD = Some dp
              /\ tname dp = "data_pad")
  /\ pad_built CIp0 TPAD RPAD
  \/ g_pad_node data ab CIp0 TPAD LPAD DPAD RPAD = None
     /\ ~ pad_built CIp0 TPAD RPAD.
Proof.
  unfold g_pad_node, g_data_pad, g_CI_PAD, pad_built.
  destruct (Z.eqb_spec TPAD 0) as [Ht|Ht], (Z.eqb_spec RPAD 0) as [Hr|Hr],
    (Z.eqb_spec (CIp0 mod 8) 0) as [Hc|Hc]; cbn [negb andb orb];
    try rewrite Hc; try (destruct (Z.eqb_spec (CIp0 mod 8) 0); [lia|]);
    cbn [negb andb orb];
    first [ left; split; [eexists; split; reflexivity|tauto]
          | right; split; [reflexivity|tauto] ].
Qed.

(** The schedule generator run on the graph of the entry point, with the
    knobs it declares. *)
Lemma schedule_run_space cfg data kernel ab wb unipolar st
    H W KH KW KB KCI CO CIp0 TPAD LPAD DPAD RPAD HSTR WSTR
    a_co VC a_oh VH a_ow VW a_ci f_ci a_ah f_ah a_bco f_bco perm :
  cfg !! "tile_co" = Some (SplitEntity [a_co; VC]) ->
  cfg !! "tile_oh" = Some (SplitEntity [a_oh; VH]) ->
  cfg !! "tile_ow" = Some (SplitEntity [a_ow; VW]) ->
  cfg !! "tile_ci" = Some (SplitEntity [a_ci; f_ci]) ->
  cfg !! "tile_ah" = Some (SplitEntity [a_ah; f_ah]) ->
  cfg !! "tile_bco" = Some (SplitEntity [a_bco; f_bco]) ->
  cfg !! "reorder_0" = Some (ReorderEntity perm) ->
  schedule_bitserial_conv2d_nhwc_no_intrinsics cfg
    [g_conv data kernel ab wb unipolar H W KH KW KB KCI CO CIp0
       TPAD LPAD DPAD RPAD HSTR WSTR VC VH VW] st
  = (inr (g_schedule (g_pad_node data ab CIp0 TPAD LPAD DPAD RPAD)
            (if g_kernel_padded KCI CIp0 then "PadInput" else "kernel_vec")
            f_ah f_bco f_ci VC VH VW (reorder_order perm)),
     push_knob (push_knob st "tile_ah" (g_tile_ah_knob H TPAD DPAD HSTR VH))
       "tile_bco" (g_tile_bco_knob CO VC)).
Proof.
  intros Hco Hoh How Hci Hah Hbco Hre.
  unfold schedule_bitserial_conv2d_nhwc_no_intrinsics.
  mrun reflexivity.
  destruct (data_pad_inputs data ab CIp0 TPAD LPAD DPAD RPAD st)
    as (t & t' & Ht & Ht').
  apply traverse_inline_run; [reflexivity|].
  unfold _callback.
  match goal with
  | |- context [contains "spatial_bitserial_conv_nhwc" ?t] =>
      change (contains "spatial_bitserial_conv_nhwc" t) with true
  end.
  cbv iota.
  mrun reflexivity. mrun reflexivity. mrun reflexivity. mrun reflexivity.
  mrun (exact Ht).
  rewrite data_pad_detect.
  mrun (exact Ht').
  mrun reflexivity.
  unfold _schedule_spatial_conv2d_nhwc_no_intrinsics.
  mrun reflexivity.
  rewrite g_kernel_vec_shape. mrun reflexivity.
  do 3 mrun (eapply cfg_size_last_split; eassumption).
  mrun reflexivity.
  mrun (eapply cfg_entity_run; eassumption).
  mrun reflexivity.
  mrun reflexivity.
  do 6 (mrun (eapply cfg_entity_run; eassumption); mrun reflexivity).
  rewrite g_kernel_vec_name.
  unfold ret. f_equal.
  unfold g_schedule, reorder_order.
  destruct (g_pad_node data ab CIp0 TPAD LPAD DPAD RPAD); reflexivity.
Qed.

Lemma resolved_width cfg name V :
  is_split2 (cfg !! name) -> tile_width cfg name V ->
  exists a, cfg !! name = Some (SplitEntity [a; V]).
Proof.
  intros (a & f & E) (size & E' & Hl). rewrite E in E'.
  injection E' as <-. exists a. now rewrite <- Hl.
Qed.

(** The compute entry point followed by the schedule generator, on a
    resolved configuration. *)
Lemma pipeline_run cfg data kernel stride padding ab wb unipolar st
    H W CI KH KW KB KCI CO CIp0 TPAD LPAD DPAD RPAD HSTR WSTR VC VH VW :
  tshape data = [1; H; W; CI] ->
  kernel_dims CI kernel wb KH KW KB KCI CO CIp0 ->
  pads_to get_pad_tuple kernel padding (TPAD, LPAD, DPAD, RPAD) ->
  strides_to stride (HSTR, WSTR) ->
  resolved cfg ->
  tile_width cfg "tile_co" VC ->
  tile_width cfg "tile_oh" VH ->
  tile_width cfg "tile_ow" VW ->
  exists st1 f_ah f_bco f_ci perm,
    bitserial_conv2d_nhwc_no_intrinsics get_pad_tuple binary_op_multiplier
      cfg data kernel stride padding ab wb "uint8" "int16" unipolar st
    = (inr (g_conv data kernel ab wb unipolar H W KH KW KB KCI CO CIp0
              TPAD LPAD DPAD RPAD HSTR WSTR VC VH VW), st1)
    /\ st_space st1
       = g_space H W KH KW CO CIp0 TPAD LPAD DPAD RPAD HSTR WSTR (st_space st)
    /\ schedule_bitserial_conv2d_nhwc_no_intrinsics cfg
         [g_conv data kernel ab wb unipolar H W KH KW KB KCI CO CIp0
            TPAD LPAD DPAD RPAD HSTR WSTR VC VH VW] st1
       = (inr (g_schedule (g_pad_node data ab CIp0 TPAD LPAD DPAD RPAD)
                 (if g_kernel_padded KCI CIp0 then "PadInput"
                  else "kernel_vec")
                 f_ah f_bco f_ci VC VH VW (reorder_order perm)),
          push_knob
            (push_knob st1 "tile_ah" (g_tile_ah_knob H TPAD DPAD HSTR VH))
            "tile_bco" (g_tile_bco_knob CO VC)).
Proof.
  intros Hd Hk Hp Hs Hres Hco Hoh How.
  destruct Hres as (Rco & Roh & Row & (a_ci & f_ci & Hci) & (a_ah & f_ah & Hah)
                    & (a_bco & f_bco & Hbco) & (perm & Hre)).
  destruct (resolved_width _ _ _ Rco Hco) as [a_co Eco].
  destruct (resolved_width _ _ _ Roh Hoh) as [a_oh Eoh].
  destruct (resolved_width _ _ _ Row How) as [a_ow Eow].
  eexists _, f_ah, f_bco, f_ci, perm.
  split; [eapply compute_run; eassumption|].
  split; [reflexivity|].
  eapply schedule_run_space; eassumption.
Qed.

(** X6. In the graph the entry point returns, the output node carries the
    marker tag the schedule callback looks for, its only input is the
    accumulation stage, whose inputs are the kernel stage and [data_vec] in
    that order, and the callback's substring test for [unipolar] on the tag
    of the accumulation stage gives back the flag the graph was built
    with. *)
Theorem X6_callback_reads_the_graph cfg data kernel stride padding ab wb
    unipolar st
    H W CI KH KW KB KCI CO CIp0 TPAD LPAD DPAD RPAD HSTR WSTR VC VH VW :
  tshape data = [1; H; W; CI] ->
  kernel_dims CI kernel wb KH KW KB KCI CO CIp0 ->
  pads_to get_pad_tuple kernel padding (TPAD, LPAD, DPAD, RPAD) ->
  strides_to stride (HSTR, WSTR) ->
  tile_width cfg "tile_co" VC ->
  tile_width cfg "tile_oh" VH ->
  tile_width cfg "tile_ow" VW ->
  exists conv conv_vec kernel_vec data_vec st',
    bitserial_conv2d_nhwc_no_intrinsics get_pad_tuple binary_op_multiplier
      cfg data kernel stride padding ab wb "uint8" "int16" unipolar st
    = (inr conv, st')
    /\ contains "spatial_bitserial_conv_nhwc" (ttag conv) = true
    /\ tinputs conv = [conv_vec]
    /\ tname conv_vec = "conv_vec"
    /\ tinputs conv_vec = [kernel_vec; data_vec]
    /\ tname data_vec = "data_vec"
    /\ tshape kernel_vec = [CO / VC; KH; KW; KB; VC; g_CI KCI CIp0]
    /\ contains "unipolar" (ttag conv_vec) = unipolar.
Proof.
  intros Hd Hk Hp Hs Hco Hoh How.
  eexists _, _, _, _, _.
  split; [eapply compute_run; eassumption|].
  split; [reflexivity|]. split; [reflexivity|]. split; [reflexivity|].
  split; [reflexivity|]. split; [reflexivity|].
  split; [apply g_kernel_vec_shape|].
  now destruct unipolar.
Qed.

(** X7. On a resolved configuration the schedule generated for the graph of
    the entry point inlines exactly one kind of stage: the activation
    padding node, and only when the entry point built one (top and right
    padding both nonzero, or a packed channel count that is not a multiple
    of 8).  The output node is never inlined.  The only vectorized axis is
    the inner output-channel axis of the output stage, and the accumulation
    stage is computed at the outer output-channel axis of the output
    stage. *)
Theorem X7_schedule_inventory cfg data kernel stride padding ab wb
    unipolar st
    H W CI KH KW KB KCI CO CIp0 TPAD LPAD DPAD RPAD HSTR WSTR VC VH VW :
  tshape data = [1; H; W; CI] ->
  kernel_dims CI kernel wb KH KW KB KCI CO CIp0 ->
  pads_to get_pad_tuple kernel padding (TPAD, LPAD, DPAD, RPAD) ->
  strides_to stride (HSTR, WSTR) ->
  resolved cfg ->
  tile_width cfg "tile_co" VC ->
  tile_width cfg "tile_oh" VH ->
  tile_width cfg "tile_ow" VW ->
  exists conv st1 s st2,
    bitserial_conv2d_nhwc_no_intrinsics get_pad_tuple binary_op_multiplier
      cfg data kernel stride padding ab wb "uint8" "int16" unipolar st
    = (inr conv, st1)
    /\ schedule_bitserial_conv2d_nhwc_no_intrinsics cfg [conv] st1
       = (inr s, st2)
    /\ (forall stage, In (compute_inline stage) s
          <-> stage = "data_pad" /\ pad_built CIp0 TPAD RPAD)
    /\ (forall stage axis, In (vectorize stage axis) s
          <-> stage = "conv" /\ axis = ax_vc)
    /\ (forall stage parent axis, In (compute_at stage parent axis) s
          <-> stage = "conv_vec" /\ parent = "conv" /\ axis = ax_co).
Proof.
  intros Hd Hk Hp Hs Hres Hco Hoh How.
  destruct (pipeline_run cfg data kernel stride padding ab wb unipolar st
              H W CI KH KW KB KCI CO CIp0 TPAD LPAD DPAD RPAD HSTR WSTR
              VC VH VW Hd Hk Hp Hs Hres Hco Hoh How)
    as (st1 & f_ah & f_bco & f_ci & perm & E1 & _ & E2).
  eexists _, _, _, _. split; [exact E1|]. split; [exact E2|].
  unfold g_schedule.
  destruct (pad_node_built data ab CIp0 TPAD LPAD DPAD RPAD)
    as [((dp & -> & Hn) & Hb) | (-> & Hb)];
    cbn [app In]; (split; [|split]).
  - intros stage. rewrite Hn. split.
    + intros [E|E]; [injection E as <-; now split|].
      repeat (destruct E as [E|E]; [discriminate|]). destruct E.
    + intros [-> _]. now left.
  - intros stage axis. split.
    + intros E. repeat (destruct E as [E|E];
        [first [discriminate | injection E as <- <-; now split]|]).
      destruct E.
    + intros [-> ->]. tauto.
  - intros stage parent axis. split.
    + intros E. repeat (destruct E as [E|E];
        [first [discriminate | injection E as <- <- <-; now repeat split]|]).
      destruct E.
    + intros (-> & -> & ->). tauto.
  - intros stage. split.
    + intros E. repeat (destruct E as [E|E]; [discriminate|]). destruct E.
    + intros [_ Hpb]. contradiction.
  - intros stage axis. split.
    + intros E. repeat (destruct E as [E|E];
        [first [discriminate | injection E as <- <-; now split]|]).
      destruct E.
    + intros [-> ->]. tauto.
  - intros stage parent axis. split.
    + intros E. repeat (destruct E as [E|E];
        [first [discriminate | injection E as <- <- <-; now repeat split]|]).
      destruct E.
    + intros (-> & -> & ->). tauto.
Qed.

(** X8. The schedule tiles the output stage by the very widths the graph
    was built with: the split factors of the output-channel, height and
    width axes of the output stage are the last three extents of the
    accumulation stage, and the reduction axis of the accumulation stage is
    split by the inner factor of the [tile_ci] entry. *)
Theorem X8_schedule_tiles_match_graph cfg data kernel stride padding ab wb
    unipolar st
    H W CI KH KW KB KCI CO CIp0 TPAD LPAD DPAD RPAD HSTR WSTR VC VH VW
    a_ci f_ci :
  tshape data = [1; H; W; CI] ->
  kernel_dims CI kernel wb KH KW KB KCI CO CIp0 ->
  pads_to get_pad_tuple kernel padding (TPAD, LPAD, DPAD, RPAD) ->
  strides_to stride (HSTR, WSTR) ->
  resolved cfg ->
  tile_width cfg "tile_co" VC ->
  tile_width cfg "tile_oh" VH ->
  tile_width cfg "tile_ow" VW ->
  cfg !! "tile_ci" = Some (SplitEntity [a_ci; f_ci]) ->
  exists conv conv_vec st1 s st2,
    bitserial_conv2d_nhwc_no_intrinsics get_pad_tuple binary_op_multiplier
      cfg data kernel stride padding ab wb "uint8" "int16" unipolar st
    = (inr conv, st1)
    /\ tinputs conv = [conv_vec]
    /\ schedule_bitserial_conv2d_nhwc_no_intrinsics cfg [conv] st1
       = (inr s, st2)
    /\ In (split "conv" ax_h (zth 4 (tshape conv_vec)) ax_oh ax_vh) s
    /\ In (split "conv" ax_w (zth 5 (tshape conv_vec)) ax_ow ax_vw) s
    /\ In (split "conv" ax_c (zth 6 (tshape conv_vec)) ax_co ax_vc) s
    /\ In (split "conv_vec" ax_ci f_ci ax_ci_o ax_ci_i) s.
Proof.
  intros Hd Hk Hp Hs Hres Hco Hoh How Hci.
  destruct Hres as (Rco & Roh & Row & (a_ci' & f_ci' & Hci')
                    & (a_ah & f_ah & Hah) & (a_bco & f_bco & Hbco)
                    & (perm & Hre)).
  destruct (resolved_width _ _ _ Rco Hco) as [a_co Eco].
  destruct (resolved_width _ _ _ Roh Hoh) as [a_oh Eoh].
  destruct (resolved_width _ _ _ Row How) as [a_ow Eow].
  eexists _, _, _, _, _.
  split; [eapply compute_run; eassumption|].
  split; [reflexivity|].
  split; [eapply schedule_run_space; eassumption|].
  cbn [g_conv_vec sum_tensor tshape zth nth].
  unfold g_schedule. rewrite !in_app_iff. cbn [In].
  repeat split; tauto.
Qed.

(** X9. The schedule generator declares two more knobs and leaves the knobs
    of the compute step as they are: [tile_ah] holds the two-way splits of
    the outer height extent of [data_vec], [(H + TPAD + DPAD) / (VH * HSTR)],
    and [tile_bco] those of the outer channel extent of the kernel stage,
    [CO / VC], in both cases with an inner factor of at most 32. *)
Theorem X9_schedule_knobs cfg data kernel stride padding ab wb
    unipolar st
    H W CI KH KW KB KCI CO CIp0 TPAD LPAD DPAD RPAD HSTR WSTR VC VH VW :
  tshape data = [1; H; W; CI] ->
  kernel_dims CI kernel wb KH KW KB KCI CO CIp0 ->
  pads_to get_pad_tuple kernel padding (TPAD, LPAD, DPAD, RPAD) ->
  strides_to stride (HSTR, WSTR) ->
  resolved cfg ->
  tile_width cfg "tile_co" VC ->
  tile_width cfg "tile_oh" VH ->
  tile_width cfg "tile_ow" VW ->
  exists conv st1 s st2,
    bitserial_conv2d_nhwc_no_intrinsics get_pad_tuple binary_op_multiplier
      cfg data kernel stride padding ab wb "uint8" "int16" unipolar st
    = (inr conv, st1)
    /\ schedule_bitserial_conv2d_nhwc_no_intrinsics cfg [conv] st1
       = (inr s, st2)
    /\ (forall e, In e (space_entities (st_space st2) "tile_ah")
          <-> exists f, e = SplitEntity [-1; f]
                /\ 1 <= f <= (H + (TPAD + DPAD)) / (VH * HSTR)
                /\ ((H + (TPAD + DPAD)) / (VH * HSTR)) mod f = 0 /\ f <= 32)
    /\ (forall e, In e (space_entities (st_space st2) "tile_bco")
          <-> exists f, e = SplitEntity [-1; f]
                /\ 1 <= f <= CO / VC /\ (CO / VC) mod f = 0 /\ f <= 32)
    /\ (forall name, name <> "tile_ah" -> name <> "tile_bco" ->
          st_space st2 !! name = st_space st1 !! name)
    /\ st_nodes st2 = st_nodes st1.
Proof.
  intros Hd Hk Hp Hs Hres Hco Hoh How.
  destruct (pipeline_run cfg data kernel stride padding ab wb unipolar st
              H W CI KH KW KB KCI CO CIp0 TPAD LPAD DPAD RPAD HSTR WSTR
              VC VH VW Hd Hk Hp Hs Hres Hco Hoh How)
    as (st1 & f_ah & f_bco & f_ci & perm & E1 & _ & E2).
  eexists _, _, _, _. split; [exact E1|]. split; [exact E2|].
  cbn [push_knob st_space st_nodes]. unfold space_entities.
  split; [|split; [|split; [|reflexivity]]].
  - intros e. rewrite lookup_insert_ne by discriminate.
    rewrite lookup_insert_eq. unfold g_tile_ah_knob. cbn [knob_entities].
    rewrite <- split_candidates_capped, filter_In. tauto.
  - intros e. rewrite lookup_insert_eq. unfold g_tile_bco_knob.
    cbn [knob_entities].
    rewrite <- split_candidates_capped, filter_In. tauto.
  - intros name Na Nb. now rewrite !lookup_insert_ne by congruence.
Qed.

Lemma traverse_inline_fail cb outs op st e st' :
  is_injective (ttag op) = false ->
  cb op [] st = (inl e, st') ->
  traverse_inline outs op cb st = (inl e, st').
Proof.
  intros Hi Hcb. unfold traverse_inline.
  destruct op as [nm tg sh dt ic ins at_ bd rd].
  cbn [_traverse mem_string existsb tname ttag] in *. rewrite Hi.
  unfold bind, ret. rewrite Hcb. reflexivity.
Qed.

(** X10. A configuration that resolves the knobs of the compute step but
    has no [tile_ah] entry lets the entry point build its graph and then
    makes the schedule generator fail with [KeyError "tile_ah"]: the knob
    is declared first and read afterwards, and [tile_bco] is not declared
    any more. *)
Theorem X10_schedule_missing_tile_ah cfg data kernel stride padding ab wb
    unipolar st
    H W CI KH KW KB KCI CO CIp0 TPAD LPAD DPAD RPAD HSTR WSTR VC VH VW :
  tshape data = [1; H; W; CI] ->
  kernel_dims CI kernel wb KH KW KB KCI CO CIp0 ->
  pads_to get_pad_tuple kernel padding (TPAD, LPAD, DPAD, RPAD) ->
  strides_to stride (HSTR, WSTR) ->
  tile_width cfg "tile_co" VC ->
  tile_width cfg "tile_oh" VH ->
  tile_width cfg "tile_ow" VW ->
  cfg !! "tile_ah" = None ->
  exists conv st1,
    bitserial_conv2d_nhwc_no_intrinsics get_pad_tuple binary_op_multiplier
      cfg data kernel stride padding ab wb "uint8" "int16" unipolar st
    = (inr conv, st1)
    /\ schedule_bitserial_conv2d_nhwc_no_intrinsics cfg [conv] st1
       = (inl (KeyError "tile_ah"),
          push_knob st1 "tile_ah" (g_tile_ah_knob H TPAD DPAD HSTR VH)).
Proof.
  intros Hd Hk Hp Hs Hco Hoh How Hn.
  eexists _, _. split; [eapply compute_run; eassumption|].
  match goal with
  | |- _ _ _ ?s = _ => set (st1 := s)
  end.
  unfold schedule_bitserial_conv2d_nhwc_no_intrinsics.
  mrun reflexivity.
  destruct (data_pad_inputs data ab CIp0 TPAD LPAD DPAD RPAD st1)
    as (t & t' & Ht & Ht').
  apply traverse_inline_fail; [reflexivity|].
  unfold _callback.
  match goal with
  | |- context [contains "spatial_bitserial_conv_nhwc" ?t] =>
      change (contains "spatial_bitserial_conv_nhwc" t) with true
  end.
  cbv iota.
  mrun reflexivity. mrun reflexivity. mrun reflexivity. mrun reflexivity.
  mrun (exact Ht).
  rewrite data_pad_detect.
  mrun (exact Ht').
  mrun reflexivity.
  unfold _schedule_spatial_conv2d_nhwc_no_intrinsics.
  mrun reflexivity.
  rewrite g_kernel_vec_shape. mrun reflexivity.
  do 3 mrun (eapply cfg_size_last_run; eassumption).
  mrun reflexivity.
  erewrite bind_inl by (unfold cfg_entity; rewrite Hn; reflexivity).
  reflexivity.
Qed.

(** ** Channel extents *)

Lemma g_data_pad_shape data ab H W CI CIp0 TPAD LPAD DPAD RPAD :
  tshape data = [1; H; W; CI] ->
  last_of (tshape (g_data_pad data ab CIp0 TPAD LPAD DPAD RPAD))
  = CI / 8 + g_CI_PAD CIp0.
Proof.
  intros Hd. pose proof (bitpack_shape4 data ab 1 H W CI Hd) as Hq.
  unfold g_data_pad, g_data_q.
  destruct (negb (TPAD =? 0) && negb (RPAD =? 0)).
  - unfold pad_tensor, compute_tensor. cbn [tshape]. rewrite Hq.
    unfold last_of; cbn [pad_shape List.last]. lia.
  - destruct (Z.eqb_spec (g_CI_PAD CIp0) 0) as [E|E]; cbn [negb].
    + rewrite Hq, E. unfold last_of; cbn [List.last]. lia.
    + unfold pad_tensor, compute_tensor. cbn [tshape]. rewrite Hq.
      unfold last_of; cbn [pad_shape List.last]. lia.
Qed.

(** X11. When the kernel and the activation tensor have the same packed
    channel count, the padded activation tensor and the kernel stage end up
    with the same channel extent, which is the extent of the reduction over
    channels: the original packed count plus the deficit, in every
    padding branch. *)
Theorem X11_channel_extents_agree cfg data kernel stride padding ab wb
    unipolar st
    H W CI KH KW KB KCI CO CIp0 TPAD LPAD DPAD RPAD HSTR WSTR VC VH VW :
  tshape data = [1; H; W; CI] ->
  kernel_dims CI kernel wb KH KW KB KCI CO CIp0 ->
  pads_to get_pad_tuple kernel padding (TPAD, LPAD, DPAD, RPAD) ->
  strides_to stride (HSTR, WSTR) ->
  tile_width cfg "tile_co" VC ->
  tile_width cfg "tile_oh" VH ->
  tile_width cfg "tile_ow" VW ->
  KCI = CI / 8 ->
  exists conv conv_vec kernel_vec data_vec data_pad r st',
    bitserial_conv2d_nhwc_no_intrinsics get_pad_tuple binary_op_multiplier
      cfg data kernel stride padding ab wb "uint8" "int16" unipolar st
    = (inr conv, st')
    /\ tinputs conv = [conv_vec]
    /\ tinputs conv_vec = [kernel_vec; data_vec]
    /\ tinputs data_vec = [data_pad]
    /\ treduce conv_vec = Some r
    /\ last_of (tshape kernel_vec) = CI / 8 + g_CI_PAD (CI / 8)
    /\ last_of (tshape data_pad) = CI / 8 + g_CI_PAD (CI / 8)
    /\ last_of (rextents r) = CI / 8 + g_CI_PAD (CI / 8).
Proof.
  intros Hd Hk Hp Hs Hco Hoh How HK.
  assert (HC : CIp0 = CI / 8) by (destruct Hk; congruence).
  assert (HCI : g_CI KCI CIp0 = CI / 8 + g_CI_PAD (CI / 8)).
  { rewrite HK, HC. unfold g_CI, g_kernel_padded, g_CI_PAD.
    destruct (Z.eqb_spec ((CI / 8) mod 8) 0) as [E|E]; cbn [negb andb].
    - lia.
    - destruct (Z.eqb_spec ((CI / 8) mod 8) 0); [lia|]. reflexivity. }
  eexists _, _, _, _, _, _, _.
  split; [eapply compute_run; eassumption|].
  split; [reflexivity|]. split; [reflexivity|]. split; [reflexivity|].
  split; [reflexivity|].
  split; [|split].
  - rewrite g_kernel_vec_shape. unfold last_of; cbn [List.last]. exact HCI.
  - rewrite (g_data_pad_shape data ab H W CI) by exact Hd. now rewrite HC.
  - rewrite g_reduce_extents. unfold last_of; cbn [List.last]. exact HCI.
Qed.

(** ** Feasibility of the reduction tile *)

(** X12. The reduction-tile knob declared by the entry point has a candidate
    exactly when the packed input-channel count is positive and leaves
    residue 0 or 4 modulo 8 (with any other residue the count the code pads
    to is not a multiple of 8, so no tile of width 8 or 16 divides it). *)
Theorem X12_reduction_tile_feasible cfg data kernel stride padding ab wb
    unipolar st
    H W CI KH KW KB KCI CO CIp0 TPAD LPAD DPAD RPAD HSTR WSTR VC VH VW :
  tshape data = [1; H; W; CI] ->
  kernel_dims CI kernel wb KH KW KB KCI CO CIp0 ->
  pads_to get_pad_tuple kernel padding (TPAD, LPAD, DPAD, RPAD) ->
  strides_to stride (HSTR, WSTR) ->
  tile_width cfg "tile_co" VC ->
  tile_width cfg "tile_oh" VH ->
  tile_width cfg "tile_ow" VW ->
  space_entities
    (st_space
       (snd (bitserial_conv2d_nhwc_no_intrinsics get_pad_tuple
               binary_op_multiplier cfg data kernel stride padding ab wb
               "uint8" "int16" unipolar st))) "tile_ci" <> []
  <-> 0 < CIp0 /\ (CIp0 mod 8 = 0 \/ CIp0 mod 8 = 4).
Proof.
  intros Hd Hk Hp Hs Hco Hoh How.
  erewrite compute_run by eassumption. cbn [snd st_space].
  unfold space_entities. rewrite g_space_tile_ci. cbn [knob_entities].
  set (n := g_CI_packed CIp0).
  assert (Hn : (8 <= n /\ n mod 8 = 0)
               <-> 0 < CIp0 /\ (CIp0 mod 8 = 0 \/ CIp0 mod 8 = 4)).
  { subst n. unfold g_CI_packed.
    destruct (Z.eqb_spec (CIp0 mod 8) 0) as [E|E]; cbn [negb];
      Z.div_mod_to_equations; lia. }
  rewrite <- Hn. split.
  - intros Hne.
    destruct (List.filter _ _) as [|e l] eqn:El; [congruence|].
    assert (Hin : In e (e :: l)) by now left.
    rewrite <- El in Hin. apply filter_In in Hin as [Hin Hf].
    apply split_candidates_spec in Hin as (f & -> & Hf1 & Hf2).
    change (last_of (entity_size (SplitEntity [-1; f]))) with f in Hf.
    apply orb_true_iff in Hf as [Hf|Hf]; apply Z.eqb_eq in Hf; subst f;
      Z.div_mod_to_equations; lia.
  - intros [H8 Hm] Hnil.
    assert (Hin : In (SplitEntity [-1; 8])
                    (List.filter
                       (fun x => (last_of (entity_size x) =? 8)
                                 || (last_of (entity_size x) =? 16))
                       (split_candidates n None))).
    { apply filter_In. split; [|reflexivity].
      apply split_candidates_spec. exists 8. repeat split; try lia. }
    rewrite Hnil in Hin. destruct Hin.
Qed.

(** ** Reads stay inside the declared shapes *)

Lemma in_shape_cons d shape i idx :
  in_shape (d :: shape) (i :: idx) = true
  <-> 0 <= i < d /\ in_shape shape idx = true.
Proof.
  cbn [in_shape]. rewrite !andb_true_iff, Z.leb_le, Z.ltb_lt. tauto.
Qed.

Lemma in_shape_nil_l idx : in_shape [] idx = true <-> idx = [].
Proof. destruct idx; cbn [in_shape]; split; congruence. Qed.

Lemma in_shape_cons_l d shape idx :
  in_shape (d :: shape) idx = true ->
  exists i idx', idx = i :: idx' /\ 0 <= i < d /\ in_shape shape idx' = true.
Proof.
  destruct idx as [|i idx']; [discriminate|].
  intros Hin. apply in_shape_cons in Hin. eauto.
Qed.

Ltac in_shape_inv H :=
  repeat
    (let i := fresh "i" in
     let r := fresh "r" in
     let Hi := fresh "Hi" in
     apply in_shape_cons_l in H as (i & r & -> & Hi & H));
  apply in_shape_nil_l in H; subst.

Lemma tile_quotient_bound a n V :
  0 < V -> n mod V = 0 -> 0 <= a < n -> 0 <= a / V < n / V.
Proof.
  intros HV Hm Ha. split; [apply Z.div_pos; lia|].
  apply Z.div_lt_upper_bound; [lia|].
  pose proof (Z_div_mod_eq_full n V). lia.
Qed.

(** X13. With positive tile widths that divide the output extents (as every
    candidate of the declared knobs does), each element of the output
    inside the output shape is computed from an element of the accumulation
    stage that lies inside the shape of that stage: replacing the values of
    the accumulation stage outside its shape changes nothing. *)
Theorem X13_output_reads_in_bounds cfg data kernel stride padding ab wb
    unipolar st
    H W CI KH KW KB KCI CO CIp0 TPAD LPAD DPAD RPAD HSTR WSTR VC VH VW :
  tshape data = [1; H; W; CI] ->
  kernel_dims CI kernel wb KH KW KB KCI CO CIp0 ->
  pads_to get_pad_tuple kernel padding (TPAD, LPAD, DPAD, RPAD) ->
  strides_to stride (HSTR, WSTR) ->
  tile_width cfg "tile_co" VC ->
  tile_width cfg "tile_oh" VH ->
  tile_width cfg "tile_ow" VW ->
  0 < VC -> 0 < VH -> 0 < VW ->
  CO mod VC = 0 ->
  ((H + (TPAD + DPAD) - KH) / HSTR + 1) mod VH = 0 ->
  ((W + (LPAD + RPAD) - KW) / WSTR + 1) mod VW = 0 ->
  exists conv conv_vec st',
    bitserial_conv2d_nhwc_no_intrinsics get_pad_tuple binary_op_multiplier
      cfg data kernel stride padding ab wb "uint8" "int16" unipolar st
    = (inr conv, st')
    /\ tinputs conv = [conv_vec]
    /\ forall idx (f g : list Z -> Z),
         in_shape (tshape conv) idx = true ->
         (forall out, in_shape (tshape conv_vec) out = true -> f out = g out) ->
         tbody conv [f] idx = tbody conv [g] idx.
Proof.
  intros Hd Hk Hp Hs Hco Hoh How HVC HVH HVW Dco Doh Dow.
  eexists _, _, _.
  split; [eapply compute_run; eassumption|].
  split; [reflexivity|].
  intros idx f g Hidx Hfg.
  cbn [g_conv compute_tensor tshape tbody] in *.
  cbn [g_conv_vec sum_tensor tshape] in Hfg.
  unfold g_OH, g_OW in *.
  in_shape_inv Hidx.
  cbn [conv_body]. f_equal. apply Hfg.
  repeat (apply in_shape_cons; split);
    try reflexivity; try (apply tile_quotient_bound; assumption);
    try (apply Z.mod_pos_bound; assumption); lia.
Qed.

Lemma outer_extent_bound P K S V :
  0 < V -> 0 < S -> S <= K -> ((P - K) / S + 1) / V <= P / (V * S).
Proof.
  intros HV HS HK.
  rewrite (Z.mul_comm V S), <- Z.div_div by lia.
  apply Z.div_le_mono; [lia|].
  replace ((P - K) / S + 1) with ((P - K + 1 * S) / S)
    by (rewrite Z.div_add by lia; reflexivity).
  apply Z.div_le_mono; lia.
Qed.

(** X14. When the strides are positive and no larger than the kernel
    extents, every summand of the accumulation, for an output element inside
    the shape of the accumulation stage and reduction indices inside the
    reduction extents, reads the kernel stage and [data_vec] only inside
    their declared shapes: replacing the values of either tensor outside its
    shape leaves every such summand unchanged. *)
Theorem X14_accumulation_reads_in_bounds cfg data kernel stride padding
    ab wb unipolar st
    H W CI KH KW KB KCI CO CIp0 TPAD LPAD DPAD RPAD HSTR WSTR VC VH VW :
  tshape data = [1; H; W; CI] ->
  kernel_dims CI kernel wb KH KW KB KCI CO CIp0 ->
  pads_to get_pad_tuple kernel padding (TPAD, LPAD, DPAD, RPAD) ->
  strides_to stride (HSTR, WSTR) ->
  tile_width cfg "tile_co" VC ->
  tile_width cfg "tile_oh" VH ->
  tile_width cfg "tile_ow" VW ->
  0 < VH -> 0 < VW ->
  0 < HSTR <= KH -> 0 < WSTR <= KW ->
  exists conv conv_vec kernel_vec data_vec r st',
    bitserial_conv2d_nhwc_no_intrinsics get_pad_tuple binary_op_multiplier
      cfg data kernel stride padding ab wb "uint8" "int16" unipolar st
    = (inr conv, st')
    /\ tinputs conv = [conv_vec]
    /\ tinputs conv_vec = [kernel_vec; data_vec]
    /\ treduce conv_vec = Some r
    /\ forall kv' dv' out red,
         tdtype kv' = tdtype kernel_vec ->
         tdtype dv' = tdtype data_vec ->
         (forall i, in_shape (tshape kernel_vec) i = true ->
                    tat kv' i = tat kernel_vec i) ->
         (forall i, in_shape (tshape data_vec) i = true ->
                    tat dv' i = tat data_vec i) ->
         in_shape (tshape conv_vec) out = true ->
         in_shape (rextents r) red = true ->
         rterm (conv_reduce
                  ((if unipolar then _unipolar_conv else _bipolar_conv)
                     kv' dv' HSTR WSTR)
                  KH KW KB (g_IB ab) (g_CI KCI CIp0)) out red
         = rterm r out red.
Proof.
  intros Hd Hk Hp Hs Hco Hoh How HVH HVW HH HW.
  eexists _, _, _, _, _, _.
  split; [eapply compute_run; eassumption|].
  split; [reflexivity|]. split; [reflexivity|]. split; [reflexivity|].
  intros kv' dv' out red Tk Td Hkv Hdv Hout Hred.
  rewrite g_kernel_vec_shape in Hkv.
  cbn [g_data_vec compute_tensor tshape] in Hdv.
  cbn [g_conv_vec sum_tensor tshape] in Hout.
  rewrite g_reduce_extents in Hred.
  in_shape_inv Hout. in_shape_inv Hred.
  pose proof (outer_extent_bound (H + (TPAD + DPAD)) KH HSTR VH HVH
                ltac:(lia) ltac:(lia)) as Bh.
  pose proof (outer_extent_bound (W + (LPAD + RPAD)) KW WSTR VW HVW
                ltac:(lia) ltac:(lia)) as Bw.
  unfold g_OH, g_OW in *.
  unfold g_reduce.
  destruct unipolar; cbn [conv_reduce rterm];
    unfold _unipolar_conv, _bipolar_conv, tread;
    rewrite Tk, Td;
    rewrite Hkv
      by (repeat (apply in_shape_cons; split); try reflexivity; lia);
    rewrite Hdv
      by (repeat (apply in_shape_cons; split); try reflexivity; try lia; nia);
    reflexivity.
Qed.

(** ** The schedule and the graph *)


(** X16. The schedule generator does not look at the weight encoding: for
    the same instance and resolved configuration, the graph built in
    unipolar mode and the graph built in bipolar mode get the same list of
    schedule primitives. *)
Theorem X16_schedule_ignores_encoding cfg data kernel stride padding ab wb
    st H W CI KH KW KB KCI CO CIp0 TPAD LPAD DPAD RPAD HSTR WSTR VC VH VW :
  tshape data = [1; H; W; CI] ->
  kernel_dims CI kernel wb KH KW KB KCI CO CIp0 ->
  pads_to get_pad_tuple kernel padding (TPAD, LPAD, DPAD, RPAD) ->
  strides_to stride (HSTR, WSTR) ->
  resolved cfg ->
  tile_width cfg "tile_co" VC ->
  tile_width cfg "tile_oh" VH ->
  tile_width cfg "tile_ow" VW ->
  exists conv_u st_u conv_b st_b s st_u' st_b',
    bitserial_conv2d_nhwc_no_intrinsics get_pad_tuple binary_op_multiplier
      cfg data kernel stride padding ab wb "uint8" "int16" true st
    = (inr conv_u, st_u)
    /\ bitserial_conv2d_nhwc_no_intrinsics get_pad_tuple
         binary_op_multiplier cfg data kernel stride padding ab wb
         "uint8" "int16" false st
       = (inr conv_b, st_b)
    /\ schedule_bitserial_conv2d_nhwc_no_intrinsics cfg [conv_u] st_u
       = (inr s, st_u')
    /\ schedule_bitserial_conv2d_nhwc_no_intrinsics cfg [conv_b] st_b
       = (inr s, st_b').
Proof.
  intros Hd Hk Hp Hs Hres Hco Hoh How.
  destruct Hres as (Rco & Roh & Row & (a_ci & f_ci & Hci) & (a_ah & f_ah & Hah)
                    & (a_bco & f_bco & Hbco) & (perm & Hre)).
  destruct (resolved_width _ _ _ Rco Hco) as [a_co Eco].
  destruct (resolved_width _ _ _ Roh Hoh) as [a_oh Eoh].
  destruct (resolved_width _ _ _ Row How) as [a_ow Eow].
  eexists _, _, _, _, _, _, _.
  split; [eapply compute_run; eassumption|].
  split; [eapply compute_run; eassumption|].
  split; eapply schedule_run_space; eassumption.
Qed.

(** ** A fused elementwise output stage *)

Lemma callback_run cfg data kernel ab wb unipolar st last outs
    H W KH KW KB KCI CO CIp0 TPAD LPAD DPAD RPAD HSTR WSTR
    a_co VC a_oh VH a_ow VW a_ci f_ci a_ah f_ah a_bco f_bco perm :
  cfg !! "tile_co" = Some (SplitEntity [a_co; VC]) ->
  cfg !! "tile_oh" = Some (SplitEntity [a_oh; VH]) ->
  cfg !! "tile_ow" = Some (SplitEntity [a_ow; VW]) ->
  cfg !! "tile_ci" = Some (SplitEntity [a_ci; f_ci]) ->
  cfg !! "tile_ah" = Some (SplitEntity [a_ah; f_ah]) ->
  cfg !! "tile_bco" = Some (SplitEntity [a_bco; f_bco]) ->
  cfg !! "reorder_0" = Some (ReorderEntity perm) ->
  _callback cfg (last :: outs)
    (g_conv data kernel ab wb unipolar H W KH KW KB KCI CO CIp0
       TPAD LPAD DPAD RPAD HSTR WSTR VC VH VW) [] st
  = (inr (g_schedule_for (tname last)
            (g_pad_node data ab CIp0 TPAD LPAD DPAD RPAD)
            (if g_kernel_padded KCI CIp0 then "PadInput" else "kernel_vec")
            f_ah f_bco f_ci VC VH VW (reorder_order perm)),
     push_knob (push_knob st "tile_ah" (g_tile_ah_knob H TPAD DPAD HSTR VH))
       "tile_bco" (g_tile_bco_knob CO VC)).
Proof.
  intros Hco Hoh How Hci Hah Hbco Hre.
  destruct (data_pad_inputs data ab CIp0 TPAD LPAD DPAD RPAD st)
    as (t & t' & Ht & Ht').
  unfold _callback.
  match goal with
  | |- context [contains "spatial_bitserial_conv_nhwc" ?t] =>
      change (contains "spatial_bitserial_conv_nhwc" t) with true
  end.
  cbv iota.
  mrun reflexivity. mrun reflexivity. mrun reflexivity. mrun reflexivity.
  mrun (exact Ht).
  rewrite data_pad_detect.
  mrun (exact Ht').
  mrun reflexivity.
  unfold _schedule_spatial_conv2d_nhwc_no_intrinsics.
  mrun reflexivity.
  rewrite g_kernel_vec_shape. mrun reflexivity.
  do 3 mrun (eapply cfg_size_last_split; eassumption).
  mrun reflexivity.
  mrun (eapply cfg_entity_run; eassumption).
  mrun reflexivity.
  mrun reflexivity.
  do 6 (mrun (eapply cfg_entity_run; eassumption); mrun reflexivity).
  rewrite g_kernel_vec_name.
  unfold ret. f_equal.
  unfold g_schedule_for, reorder_order.
  change (tname (g_conv data kernel ab wb unipolar H W KH KW KB KCI CO CIp0
                   TPAD LPAD DPAD RPAD HSTR WSTR VC VH VW)) with "conv".
  destruct (g_pad_node data ab CIp0 TPAD LPAD DPAD RPAD),
    (negb (String.eqb (tname last) "conv")); reflexivity.
Qed.

Lemma epilogue_traverse cb name conv fn st s st' :
  String.eqb (tname conv) name = false ->
  is_injective (ttag conv) = false ->
  tis_compute conv = true ->
  cb conv [] st = (inr s, st') ->
  cb (with_epilogue name conv fn) s st' = (inr s, st') ->
  traverse_inline [name] (with_epilogue name conv fn) cb st = (inr s, st').
Proof.
  intros Hne Hi Hc Hcb Hcb'.
  unfold traverse_inline. unfold with_epilogue, compute_tensor in *.
  destruct conv as [nm tg sh dt ic ins at_ bd rd].
  cbn [tname ttag tis_compute tshape tdtype] in *. subst ic.
  cbn [_traverse mem_string existsb tname ttag tinputs tis_compute].
  rewrite String.eqb_refl, Hne, Hi. cbn [orb].
  change (is_injective "elemwise") with true. cbv iota.
  unfold bind, ret in *. rewrite Hcb, Hcb'. reflexivity.
Qed.

(** X17. When the convolution is followed by an elementwise stage that is
    the final output (and is not itself called [conv]), the schedule
    generator tiles and vectorizes that final stage instead of the
    convolution output node, inlines the convolution output node into it,
    and computes the accumulation stage at the outer output-channel axis of
    the final stage. *)
Theorem X17_fused_output_stage cfg data kernel stride padding ab wb
    unipolar st name fn
    H W CI KH KW KB KCI CO CIp0 TPAD LPAD DPAD RPAD HSTR WSTR VC VH VW :
  tshape data = [1; H; W; CI] ->
  kernel_dims CI kernel wb KH KW KB KCI CO CIp0 ->
  pads_to get_pad_tuple kernel padding (TPAD, LPAD, DPAD, RPAD) ->
  strides_to stride (HSTR, WSTR) ->
  resolved cfg ->
  tile_width cfg "tile_co" VC ->
  tile_width cfg "tile_oh" VH ->
  tile_width cfg "tile_ow" VW ->
  name <> "conv" ->
  exists conv st1 s st2,
    bitserial_conv2d_nhwc_no_intrinsics get_pad_tuple binary_op_multiplier
      cfg data kernel stride padding ab wb "uint8" "int16" unipolar st
    = (inr conv, st1)
    /\ schedule_bitserial_conv2d_nhwc_no_intrinsics cfg
         [with_epilogue name conv fn] st1
       = (inr s, st2)
    /\ In (compute_inline "conv") s
    /\ In (split name ax_c VC ax_co ax_vc) s
    /\ In (split name ax_h VH ax_oh ax_vh) s
    /\ In (split name ax_w VW ax_ow ax_vw) s
    /\ In (vectorize name ax_vc) s
    /\ In (compute_at "conv_vec" name ax_co) s
    /\ (forall parent f outer inner,
          ~ In (split "conv" parent f outer inner) s).
Proof.
  intros Hd Hk Hp Hs Hres Hco Hoh How Hname.
  destruct Hres as (Rco & Roh & Row & (a_ci & f_ci & Hci) & (a_ah & f_ah & Hah)
                    & (a_bco & f_bco & Hbco) & (perm & Hre)).
  destruct (resolved_width _ _ _ Rco Hco) as [a_co Eco].
  destruct (resolved_width _ _ _ Roh Hoh) as [a_oh Eoh].
  destruct (resolved_width _ _ _ Row How) as [a_ow Eow].
  assert (Hn1 : String.eqb "conv" name = false)
    by (apply String.eqb_neq; congruence).
  assert (Hn2 : String.eqb name "conv" = false)
    by (apply String.eqb_neq; congruence).
  eexists _, _, _, _.
  split; [eapply compute_run; eassumption|].
  split.
  { unfold schedule_bitserial_conv2d_nhwc_no_intrinsics.
    mrun reflexivity. cbn [map].
    change (tname (with_epilogue name _ fn)) with name.
    apply epilogue_traverse.
    - exact Hn1.
    - reflexivity.
    - reflexivity.
    - eapply callback_run; eassumption.
    - reflexivity. }
  change (tname (with_epilogue name _ fn)) with name.
  unfold g_schedule_for. rewrite Hn2. cbn [negb].
  rewrite !in_app_iff. cbn [In].
  repeat (split; [tauto|]).
  intros parent f outer inner Hin.
  assert (Hk1 : (if g_kernel_padded KCI CIp0 then "PadInput" else "kernel_vec")
                <> "conv") by (destruct (g_kernel_padded KCI CIp0); discriminate).
  rewrite !in_app_iff in Hin. cbn [In] in Hin.
  destruct Hin as [Hin | [Hin | [Hin | Hin]]].
  - destruct (g_pad_node data ab CIp0 TPAD LPAD DPAD RPAD); cbn [In] in Hin;
      [destruct Hin as [Hin|[]]; discriminate|destruct Hin].
  - repeat (destruct Hin as [Hin|Hin];
      [first [discriminate | injection Hin as E1 _ _ _ _; congruence]|]).
    destruct Hin.
  - destruct Hin as [Hin|[]]; discriminate.
  - repeat (destruct Hin as [Hin|Hin]; [discriminate|]). destruct Hin.
Qed.

(** ** A kernel that is already bit-packed *)

(** X18. Handing the entry point the kernel already bit-packed (the 5-D
    tensor that packing the 4-D kernel along its channel axis gives) returns
    the very same output tensor as handing it the 4-D kernel, when the
    kernel and the activation tensor have the same packed channel count;
    only the node of the packing step is missing from the graph. *)
Theorem X18_prepacked_kernel_same_tensor cfg data kernel stride padding
    ab wb unipolar st
    H W CI KH KW KCI0 CO TPAD LPAD DPAD RPAD HSTR WSTR VC VH VW :
  tshape data = [1; H; W; CI] ->
  tshape kernel = [KH; KW; KCI0; CO] ->
  KCI0 / 8 = CI / 8 ->
  pads_to get_pad_tuple kernel padding (TPAD, LPAD, DPAD, RPAD) ->
  pads_to get_pad_tuple (bitpack_tensor kernel wb 2 2) padding
    (TPAD, LPAD, DPAD, RPAD) ->
  strides_to stride (HSTR, WSTR) ->
  tile_width cfg "tile_co" VC ->
  tile_width cfg "tile_oh" VH ->
  tile_width cfg "tile_ow" VW ->
  exists conv st4 st5,
    bitserial_conv2d_nhwc_no_intrinsics get_pad_tuple binary_op_multiplier
      cfg data kernel stride padding ab wb "uint8" "int16" unipolar st
    = (inr conv, st4)
    /\ bitserial_conv2d_nhwc_no_intrinsics get_pad_tuple
         binary_op_multiplier cfg data (bitpack_tensor kernel wb 2 2)
         stride padding ab wb "uint8" "int16" unipolar st
       = (inr conv, st5)
    /\ st_space st5 = st_space st4
    /\ st_flop st5 = st_flop st4.
Proof.
  intros Hd Hk HC Hp Hp' Hs Hco Hoh How.
  pose proof (bitpack_shape_kernel kernel wb KH KW KCI0 CO Hk) as Hk5.
  assert (D4 : kernel_dims CI kernel wb KH KW (Z.max 1 wb) (KCI0 / 8) CO
                 (CI / 8)) by now apply kernel_unpacked.
  assert (D5 : kernel_dims CI (bitpack_tensor kernel wb 2 2) wb KH KW
                 (Z.max 1 wb) (KCI0 / 8) CO (KCI0 / 8))
    by now apply kernel_prepacked.
  assert (Q4 : g_kernel_q kernel wb = bitpack_tensor kernel wb 2 2).
  { unfold g_kernel_q, g_use_bitpack. now rewrite Hk. }
  assert (Q5 : g_kernel_q (bitpack_tensor kernel wb 2 2) wb
               = bitpack_tensor kernel wb 2 2).
  { unfold g_kernel_q, g_use_bitpack. now rewrite Hk5. }
  eexists _, _, _.
  split; [eapply compute_run; eassumption|].
  split.
  - erewrite compute_run by eassumption. rewrite HC. f_equal.
    unfold g_conv, g_conv_vec, g_reduce, g_kernel_vec, g_kernel_vec0.
    rewrite Q4, Q5. reflexivity.
  - cbn [st_space st_flop]. split; reflexivity.
Qed.

(** ** Zero words *)

(** X19. A zero activation word makes the summand of the accumulation zero
    in both modes, whatever the kernel word and the element types of the two
    tensors are; this is what makes zero padding of the activations
    harmless.  In bipolar mode a zero kernel word does the same. *)
Theorem X19_zero_word_contributes_nothing kv dv HSTR WSTR (unipolar : bool)
    n h w co vh vw vc dh dw kb ib ci :
  tat dv [n; h; w; vh * HSTR + dh; vw * WSTR + dw; ib; ci] = 0
  \/ (unipolar = false /\ tat kv [co; dh; dw; kb; vc; ci] = 0) ->
  eval ((if unipolar then _unipolar_conv else _bipolar_conv)
          kv dv HSTR WSTR n h w co vh vw vc dh dw kb ib ci) = 0.
Proof.
  intros [Hz | [-> Hz]].
  - now apply zero_activation_summand.
  - unfold _bipolar_conv, tread. rewrite Hz.
    destruct (tdtype kv), (tdtype dv);
      cbn [astype dtype_of dtype_eqb band shl sub match_types dtype_bits
           dtype_signed Z.ltb Z.compare Pos.compare Pos.compare_cont eval];
      rewrite ?wrap_zero, ?Z.land_0_l, ?popcount_zero,
        ?Z.shiftl_0_l, ?wrap_zero; reflexivity.
Qed.

End MoreProperties.

(** * Concrete instances of the further properties *)

Ltac example_hyps :=
  lazymatch goal with
  | |- kernel_dims _ _ _ _ _ _ _ _ _ =>
      apply (kernel_unpacked 64 example_kernel 1 3 3 64 8); reflexivity
  | |- pads_to _ _ _ _ => apply (pads_int pad_symmetric _ 0)
  | |- strides_to _ _ => apply strides_int
  | |- tile_width _ _ _ => eexists; split; reflexivity
  | |- resolved _ =>
      repeat split; try (eexists _, _; reflexivity); eexists; reflexivity
  | |- drawn_from _ _ => apply drawn_fromb_sound; vm_compute; reflexivity
  | |- _ <> _ => discriminate
  | |- _ => first [reflexivity | lia]
  end.

(** X1 on the 1x8x8x64 instance with a 3x3 kernel. *)
Lemma X1_declared_operation_count_witness :
  st_flop (snd (bitserial_conv2d_nhwc_no_intrinsics pad_symmetric
                  multiplier_8 (example_cfg perm_kh_outer) example_data
                    example_kernel (PyInt 1) (PyInt 0) 1 1
                  "uint8" "int16" false init_state))
  = st_flop init_state
    + 2 * 1 * ((8 + (0 + 0) - 3) / 1 + 1)
      * ((8 + (0 + 0) - 3) / 1 + 1) * 8 * 64 * 3 * 3
      * multiplier_8 "uint8".
Proof.
  apply (X1_declared_operation_count pad_symmetric multiplier_8 (example_cfg
    perm_kh_outer) example_data example_kernel (PyInt 1) (PyInt 0) 1 1 false
    init_state 8 8 64 3 3 1 8 8 8 0 0 0 0 1 1 8 2 3);
    example_hyps.
Defined.

(** X2 on an activation tensor of shape (1,). *)
Lemma X2_wrong_rank_is_value_error_witness :
  exists msg,
    bitserial_conv2d_nhwc_no_intrinsics pad_symmetric multiplier_8
      ∅ (placeholder [1] UInt8 "data" (fun _ => 0)) example_kernel (PyInt 1)
        (PyInt 0) 1 1 "uint8" "int16" false init_state
    = (inl (ValueError msg), init_state).
Proof.
  apply (X2_wrong_rank_is_value_error pad_symmetric multiplier_8 ∅
    (placeholder [1] UInt8 "data" (fun _ => 0)) example_kernel (PyInt 1)
    (PyInt 0) 1 1 false init_state);
    left; exists []; split; [reflexivity|discriminate].
Defined.

(** X3 on a padding of three amounts. *)
Lemma X3_wrong_sequence_is_value_error_witness :
  exists msg,
    bitserial_conv2d_nhwc_no_intrinsics pad_symmetric multiplier_8
      ∅ example_data example_kernel (PyInt 1) (PySeq [1; 2; 3]) 1 1 "uint8"
        "int16" false init_state
    = (inl (ValueError msg), init_state).
Proof.
  apply (X3_wrong_sequence_is_value_error pad_symmetric multiplier_8 ∅
    example_data example_kernel (PyInt 1) (PySeq [1; 2; 3]) 1 1 false
    init_state 8 8 64 3 3 1 8 8 8);
    [reflexivity
    | example_hyps
    | left; exists [1; 2; 3]; repeat split; discriminate].
Defined.


(** X4 on the empty configuration. *)
Lemma X4_missing_tile_is_key_error_witness :
  bitserial_conv2d_nhwc_no_intrinsics pad_symmetric multiplier_8
    ∅ example_data example_kernel (PyInt 1) (PyInt 0) 1 1 "uint8" "int16"
      false init_state
  = (inl (KeyError "tile_co"),
     mkState (st_nodes init_state)
       (g_space 8 8 3 3 8 8 0 0 0 0 1 1 (st_space init_state))
       (st_flop init_state
        + 2 * 1 * g_OH 8 3 0 0 1 * g_OW 8 3 0 0 1 * 8
          * 64 * 3 * 3 * multiplier_8 "uint8")).
Proof.
  apply (X4_missing_tile_is_key_error pad_symmetric multiplier_8 ∅
    example_data example_kernel (PyInt 1) (PyInt 0) 1 1 false init_state
    "tile_co" 8 8 64 3 3 1 8 8 8 0 0 0 0 1 1);
    [example_hyps | example_hyps | example_hyps | example_hyps
    | left; split; reflexivity].
Defined.

(** X6 on the 1x8x8x64 instance with a 3x3 kernel. *)
Lemma X6_callback_reads_the_graph_witness :
  exists conv conv_vec kernel_vec data_vec st',
    bitserial_conv2d_nhwc_no_intrinsics pad_symmetric multiplier_8
      (example_cfg perm_kh_outer) example_data example_kernel (PyInt 1) (PyInt
        0) 1 1 "uint8" "int16" false init_state
    = (inr conv, st')
    /\ contains "spatial_bitserial_conv_nhwc" (ttag conv) = true
    /\ tinputs conv = [conv_vec]
    /\ tname conv_vec = "conv_vec"
    /\ tinputs conv_vec = [kernel_vec; data_vec]
    /\ tname data_vec = "data_vec"
    /\ tshape kernel_vec = [8 / 8; 3; 3; 1; 8; g_CI 8 8]
    /\ contains "unipolar" (ttag conv_vec) = false.
Proof.
  apply (X6_callback_reads_the_graph pad_symmetric multiplier_8 (example_cfg
    perm_kh_outer) example_data example_kernel (PyInt 1) (PyInt 0) 1 1 false
    init_state 8 8 64 3 3 1 8 8 8 0 0 0 0 1 1 8 2 3);
    example_hyps.
Defined.

(** X7 on the 1x8x8x64 instance with a 3x3 kernel. *)
Lemma X7_schedule_inventory_witness :
  exists conv st1 s st2,
    bitserial_conv2d_nhwc_no_intrinsics pad_symmetric multiplier_8
      (example_cfg perm_kh_outer) example_data example_kernel (PyInt 1) (PyInt
        0) 1 1 "uint8" "int16" false init_state
    = (inr conv, st1)
    /\ schedule_bitserial_conv2d_nhwc_no_intrinsics (example_cfg
      perm_kh_outer) [conv] st1
       = (inr s, st2)
    /\ (forall stage, In (compute_inline stage) s
          <-> stage = "data_pad" /\ pad_built 8 0 0)
    /\ (forall stage axis, In (vectorize stage axis) s
          <-> stage = "conv" /\ axis = ax_vc)
    /\ (forall stage parent axis, In (compute_at stage parent axis) s
          <-> stage = "conv_vec" /\ parent = "conv" /\ axis = ax_co).
Proof.
  apply (X7_schedule_inventory pad_symmetric multiplier_8 (example_cfg
    perm_kh_outer) example_data example_kernel (PyInt 1) (PyInt 0) 1 1 false
    init_state 8 8 64 3 3 1 8 8 8 0 0 0 0 1 1 8 2 3);
    example_hyps.
Defined.

(** X8 on the 1x8x8x64 instance with a 3x3 kernel. *)
Lemma X8_schedule_tiles_match_graph_witness :
  exists conv conv_vec st1 s st2,
    bitserial_conv2d_nhwc_no_intrinsics pad_symmetric multiplier_8
      (example_cfg perm_kh_outer) example_data example_kernel (PyInt 1) (PyInt
        0) 1 1 "uint8" "int16" false init_state
    = (inr conv, st1)
    /\ tinputs conv = [conv_vec]
    /\ schedule_bitserial_conv2d_nhwc_no_intrinsics (example_cfg
      perm_kh_outer) [conv] st1
       = (inr s, st2)
    /\ In (split "conv" ax_h (zth 4 (tshape conv_vec)) ax_oh ax_vh) s
    /\ In (split "conv" ax_w (zth 5 (tshape conv_vec)) ax_ow ax_vw) s
    /\ In (split "conv" ax_c (zth 6 (tshape conv_vec)) ax_co ax_vc) s
    /\ In (split "conv_vec" ax_ci 8 ax_ci_o ax_ci_i) s.
Proof.
  apply (X8_schedule_tiles_match_graph pad_symmetric multiplier_8 (example_cfg
    perm_kh_outer) example_data example_kernel (PyInt 1) (PyInt 0) 1 1 false
    init_state 8 8 64 3 3 1 8 8 8 0 0 0 0 1 1 8 2 3 (-1) 8);
    example_hyps.
Defined.

(** X9 on the 1x8x8x64 instance with a 3x3 kernel. *)
Lemma X9_schedule_knobs_witness :
  exists conv st1 s st2,
    bitserial_conv2d_nhwc_no_intrinsics pad_symmetric multiplier_8
      (example_cfg perm_kh_outer) example_data example_kernel (PyInt 1) (PyInt
        0) 1 1 "uint8" "int16" false init_state
    = (inr conv, st1)
    /\ schedule_bitserial_conv2d_nhwc_no_intrinsics (example_cfg
      perm_kh_outer) [conv] st1
       = (inr s, st2)
    /\ (forall e, In e (space_entities (st_space st2) "tile_ah")
          <-> exists f, e = SplitEntity [-1; f]
                /\ 1 <= f <= (8 + (0 + 0)) / (2 * 1)
                /\ ((8 + (0 + 0)) / (2 * 1)) mod f = 0 /\ f <= 32)
    /\ (forall e, In e (space_entities (st_space st2) "tile_bco")
          <-> exists f, e = SplitEntity [-1; f]
                /\ 1 <= f <= 8 / 8 /\ (8 / 8) mod f = 0 /\ f <= 32)
    /\ (forall name, name <> "tile_ah" -> name <> "tile_bco" ->
          st_space st2 !! name = st_space st1 !! name)
    /\ st_nodes st2 = st_nodes st1.
Proof.
  apply (X9_schedule_knobs pad_symmetric multiplier_8 (example_cfg
    perm_kh_outer) example_data example_kernel (PyInt 1) (PyInt 0) 1 1 false
    init_state 8 8 64 3 3 1 8 8 8 0 0 0 0 1 1 8 2 3);
    example_hyps.
Defined.

(** X10 on a configuration with the three output tiles only. *)
Lemma X10_schedule_missing_tile_ah_witness :
  exists conv st1,
    bitserial_conv2d_nhwc_no_intrinsics pad_symmetric multiplier_8
      compute_only_cfg example_data example_kernel (PyInt 1) (PyInt 0) 1 1
        "uint8" "int16" false init_state
    = (inr conv, st1)
    /\ schedule_bitserial_conv2d_nhwc_no_intrinsics compute_only_cfg [conv]
      st1
       = (inl (KeyError "tile_ah"),
          push_knob st1 "tile_ah" (g_tile_ah_knob 8 0 0 1 2)).
Proof.
  apply (X10_schedule_missing_tile_ah pad_symmetric multiplier_8
    compute_only_cfg example_data example_kernel (PyInt 1) (PyInt 0) 1 1 false
    init_state 8 8 64 3 3 1 8 8 8 0 0 0 0 1 1 8 2 3);
    example_hyps.
Defined.

(** X11 on the 1x8x8x64 instance with a 3x3 kernel. *)
Lemma X11_channel_extents_agree_witness :
  exists conv conv_vec kernel_vec data_vec data_pad r st',
    bitserial_conv2d_nhwc_no_intrinsics pad_symmetric multiplier_8
      (example_cfg perm_kh_outer) example_data example_kernel (PyInt 1) (PyInt
        0) 1 1 "uint8" "int16" false init_state
    = (inr conv, st')
    /\ tinputs conv = [conv_vec]
    /\ tinputs conv_vec = [kernel_vec; data_vec]
    /\ tinputs data_vec = [data_pad]
    /\ treduce conv_vec = Some r
    /\ last_of (tshape kernel_vec) = 64 / 8 + g_CI_PAD (64 / 8)
    /\ last_of (tshape data_pad) = 64 / 8 + g_CI_PAD (64 / 8)
    /\ last_of (rextents r) = 64 / 8 + g_CI_PAD (64 / 8).
Proof.
  apply (X11_channel_extents_agree pad_symmetric multiplier_8 (example_cfg
    perm_kh_outer) example_data example_kernel (PyInt 1) (PyInt 0) 1 1 false
    init_state 8 8 64 3 3 1 8 8 8 0 0 0 0 1 1 8 2 3);
    example_hyps.
Defined.

(** X12 on the 1x8x8x64 instance with a 3x3 kernel. *)
Lemma X12_reduction_tile_feasible_witness :
  space_entities
    (st_space
       (snd (bitserial_conv2d_nhwc_no_intrinsics pad_symmetric
               multiplier_8 (example_cfg perm_kh_outer) example_data
                 example_kernel (PyInt 1) (PyInt 0) 1 1
               "uint8" "int16" false init_state))) "tile_ci" <> []
  <-> 0 < 8 /\ (8 mod 8 = 0 \/ 8 mod 8 = 4).
Proof.
  apply (X12_reduction_tile_feasible pad_symmetric multiplier_8 (example_cfg
    perm_kh_outer) example_data example_kernel (PyInt 1) (PyInt 0) 1 1 false
    init_state 8 8 64 3 3 1 8 8 8 0 0 0 0 1 1 8 2 3);
    example_hyps.
Defined.

(** X13 on the 1x8x8x64 instance with a 3x3 kernel. *)
Lemma X13_output_reads_in_bounds_witness :
  exists conv conv_vec st',
    bitserial_conv2d_nhwc_no_intrinsics pad_symmetric multiplier_8
      (example_cfg perm_kh_outer) example_data example_kernel (PyInt 1) (PyInt
        0) 1 1 "uint8" "int16" false init_state
    = (inr conv, st')
    /\ tinputs conv = [conv_vec]
    /\ forall idx (f g : list Z -> Z),
         in_shape (tshape conv) idx = true ->
         (forall out, in_shape (tshape conv_vec) out = true -> f out = g out)
           ->
         tbody conv [f] idx = tbody conv [g] idx.
Proof.
  apply (X13_output_reads_in_bounds pad_symmetric multiplier_8 (example_cfg
    perm_kh_outer) example_data example_kernel (PyInt 1) (PyInt 0) 1 1 false
    init_state 8 8 64 3 3 1 8 8 8 0 0 0 0 1 1 8 2 3);
    example_hyps.
Defined.

(** X14 on the 1x8x8x64 instance with a 3x3 kernel. *)
Lemma X14_accumulation_reads_in_bounds_witness :
  exists conv conv_vec kernel_vec data_vec r st',
    bitserial_conv2d_nhwc_no_intrinsics pad_symmetric multiplier_8
      (example_cfg perm_kh_outer) example_data example_kernel (PyInt 1) (PyInt
        0) 1 1 "uint8" "int16" false init_state
    = (inr conv, st')
    /\ tinputs conv = [conv_vec]
    /\ tinputs conv_vec = [kernel_vec; data_vec]
    /\ treduce conv_vec = Some r
    /\ forall kv' dv' out red,
         tdtype kv' = tdtype kernel_vec ->
         tdtype dv' = tdtype data_vec ->
         (forall i, in_shape (tshape kernel_vec) i = true ->
                    tat kv' i = tat kernel_vec i) ->
         (forall i, in_shape (tshape data_vec) i = true ->
                    tat dv' i = tat data_vec i) ->
         in_shape (tshape conv_vec) out = true ->
         in_shape (rextents r) red = true ->
         rterm (conv_reduce
                  ((if false then _unipolar_conv else _bipolar_conv)
                     kv' dv' 1 1)
                  3 3 1 (g_IB 1) (g_CI 8 8)) out red
         = rterm r out red.
Proof.
  apply (X14_accumulation_reads_in_bounds pad_symmetric multiplier_8
    (example_cfg perm_kh_outer) example_data example_kernel (PyInt 1) (PyInt
    0) 1 1 false init_state 8 8 64 3 3 1 8 8 8 0 0 0 0 1 1 8 2 3);
    example_hyps.
Defined.


(** X16 on the 1x8x8x64 instance with a 3x3 kernel. *)
Lemma X16_schedule_ignores_encoding_witness :
  exists conv_u st_u conv_b st_b s st_u' st_b',
    bitserial_conv2d_nhwc_no_intrinsics pad_symmetric multiplier_8
      (example_cfg perm_kh_outer) example_data example_kernel (PyInt 1) (PyInt
        0) 1 1 "uint8" "int16" true init_state
    = (inr conv_u, st_u)
    /\ bitserial_conv2d_nhwc_no_intrinsics pad_symmetric
         multiplier_8 (example_cfg perm_kh_outer) example_data example_kernel
           (PyInt 1) (PyInt 0) 1 1
         "uint8" "int16" false init_state
       = (inr conv_b, st_b)
    /\ schedule_bitserial_conv2d_nhwc_no_intrinsics (example_cfg
      perm_kh_outer) [conv_u] st_u
       = (inr s, st_u')
    /\ schedule_bitserial_conv2d_nhwc_no_intrinsics (example_cfg
      perm_kh_outer) [conv_b] st_b
       = (inr s, st_b').
Proof.
  apply (X16_schedule_ignores_encoding pad_symmetric multiplier_8 (example_cfg
    perm_kh_outer) example_data example_kernel (PyInt 1) (PyInt 0) 1 1
    init_state 8 8 64 3 3 1 8 8 8 0 0 0 0 1 1 8 2 3);
    example_hyps.
Defined.

(** X17 with a rectifier fused after the convolution. *)
Lemma X17_fused_output_stage_witness :
  exists conv st1 s st2,
    bitserial_conv2d_nhwc_no_intrinsics pad_symmetric multiplier_8
      (example_cfg perm_kh_outer) example_data example_kernel (PyInt 1) (PyInt
        0) 1 1 "uint8" "int16" false init_state
    = (inr conv, st1)
    /\ schedule_bitserial_conv2d_nhwc_no_intrinsics (example_cfg
      perm_kh_outer)
         [with_epilogue "relu" conv (Z.max 0)] st1
       = (inr s, st2)
    /\ In (compute_inline "conv") s
    /\ In (split "relu" ax_c 8 ax_co ax_vc) s
    /\ In (split "relu" ax_h 2 ax_oh ax_vh) s
    /\ In (split "relu" ax_w 3 ax_ow ax_vw) s
    /\ In (vectorize "relu" ax_vc) s
    /\ In (compute_at "conv_vec" "relu" ax_co) s
    /\ (forall parent f outer inner,
          ~ In (split "conv" parent f outer inner) s).
Proof.
  apply (X17_fused_output_stage pad_symmetric multiplier_8 (example_cfg
    perm_kh_outer) example_data example_kernel (PyInt 1) (PyInt 0) 1 1 false
    init_state "relu" (Z.max 0) 8 8 64 3 3 1 8 8 8 0 0 0 0 1 1 8 2 3);
    example_hyps.
Defined.

(** X18 on the 1x8x8x64 instance with a 3x3 kernel. *)
Lemma X18_prepacked_kernel_same_tensor_witness :
  exists conv st4 st5,
    bitserial_conv2d_nhwc_no_intrinsics pad_symmetric multiplier_8
      (example_cfg perm_kh_outer) example_data example_kernel (PyInt 1) (PyInt
        0) 1 1 "uint8" "int16" false init_state
    = (inr conv, st4)
    /\ bitserial_conv2d_nhwc_no_intrinsics pad_symmetric
         multiplier_8 (example_cfg perm_kh_outer) example_data (bitpack_tensor
           example_kernel 1 2 2)
         (PyInt 1) (PyInt 0) 1 1 "uint8" "int16" false init_state
       = (inr conv, st5)
    /\ st_space st5 = st_space st4
    /\ st_flop st5 = st_flop st4.
Proof.
  apply (X18_prepacked_kernel_same_tensor pad_symmetric multiplier_8
    (example_cfg perm_kh_outer) example_data example_kernel (PyInt 1) (PyInt
    0) 1 1 false init_state 8 8 64 3 3 64 8 0 0 0 0 1 1 8 2 3);
    example_hyps.
Defined.

(** X19 on an all-zero activation tensor, unipolar mode. *)
Lemma X19_zero_word_contributes_nothing_witness :
  eval ((if true then _unipolar_conv else _bipolar_conv)
          example_kernel (placeholder [] UInt8 "zero" (fun _ => 0)) 1 1 0 0 0
            0 0 0 0 0 0 0 0 0) = 0.
Proof.
  apply (X19_zero_word_contributes_nothing example_kernel (placeholder []
    UInt8 "zero" (fun _ => 0)) 1 1 true 0 0 0 0 0 0 0 0 0 0 0 0);
    left; reflexivity.
Defined.
